(** * vk-io: the message context (structures/contexts/message.ts)

    A shallow embedding of [MessageContext]: the wire payload, the
    normalisation done by [applyPayload], the derived accessors, the
    asynchronous operations ([loadMessagePayload], [send],
    [markAsImportant], the chat-only operations), the serialisation
    projection and the aggregated attachment lookup.

    Conventions of the embedding:
    - JavaScript numbers that carry identifiers, flags and timestamps are
      integers and are modelled by [Z];
    - an optional property ([text?: string]) is an [option]; [undefined]
      is [None];
    - an object used as a bag of named parameters (the options of
      [messages.send]) is a [gmap string json], object spread is map union;
    - a method that mutates [this] takes the context and returns the new
      one; a thrown exception keeps the mutations done before it;
    - [await] on a collaborator (the API client, the clock, the random
      identifier source) is a node of a finite interaction tree. *)

From Stdlib Require Import ZArith Ascii String List Bool Lia.
From stdpp Require Import base option list strings gmap.

#[local] Set Warnings "-register-all".
Local Open Scope string_scope.
Local Open Scope Z_scope.

(** ** JSON values and [JSON.parse]

    [JSON.parse] is a builtin of the platform. It is modelled by a
    recursive-descent reader of the JSON grammar (ECMA-404): a result is
    the decoded value, [None] stands for the [SyntaxError] the builtin
    throws. Numbers keep the exact decimal value of the literal
    ([JNumber m e] is [m * 10^e]); they are not rounded to a double. An
    object keeps its members in source order, a repeated key keeps its
    first position and its last value. *)

Inductive json : Type :=
| JNull
| JBool (b : bool)
| JNumber (mantissa exponent : Z)
| JString (s : string)
| JArray (items : list json)
| JObject (members : list (string * json)).

Module JSON.

Definition code (c : ascii) : Z := Z.of_N (N_of_ascii c).
Definition chr (n : Z) : ascii := ascii_of_N (Z.to_N n).

Definition quote : ascii := chr 34.
Definition backslash : ascii := chr 92.

Definition is_ws (c : ascii) : bool :=
  let n := code c in
  (n =? 32) || (n =? 9) || (n =? 10) || (n =? 13).

Fixpoint skip_ws (cs : list ascii) : list ascii :=
  match cs with
  | c :: r => if is_ws c then skip_ws r else cs
  | [] => []
  end.

Definition digit_val (c : ascii) : option Z :=
  let n := code c in
  if (48 <=? n) && (n <=? 57) then Some (n - 48) else None.

Definition hex_val (c : ascii) : option Z :=
  let n := code c in
  if (48 <=? n) && (n <=? 57) then Some (n - 48)
  else if (65 <=? n) && (n <=? 70) then Some (n - 55)
  else if (97 <=? n) && (n <=? 102) then Some (n - 87)
  else None.

(** The bytes (UTF-8) of a code unit given by a [\uXXXX] escape. *)
Definition encode_unit (n : Z) : list ascii :=
  if n <? 128 then [chr n]
  else if n <? 2048 then [chr (192 + n / 64); chr (128 + n mod 64)]
  else [chr (224 + n / 4096); chr (128 + (n / 64) mod 64); chr (128 + n mod 64)].

Definition escape_val (c : ascii) : option ascii :=
  let n := code c in
  if (n =? 34) || (n =? 92) || (n =? 47) then Some c
  else if n =? 98 then Some (chr 8)
  else if n =? 102 then Some (chr 12)
  else if n =? 110 then Some (chr 10)
  else if n =? 114 then Some (chr 13)
  else if n =? 116 then Some (chr 9)
  else None.

(** The characters of a string literal, after its opening quote; [acc]
    holds the decoded characters in reverse. *)
Fixpoint parse_chars (cs acc : list ascii) : option (string * list ascii) :=
  match cs with
  | [] => None
  | c :: r =>
      if code c =? 34 then Some (string_of_list_ascii (rev acc), r)
      else if code c =? 92 then
        match r with
        | [] => None
        | e :: r1 =>
            if code e =? 117 then
              match r1 with
              | h1 :: h2 :: h3 :: h4 :: r2 =>
                  match hex_val h1, hex_val h2, hex_val h3, hex_val h4 with
                  | Some a, Some b, Some c', Some d =>
                      parse_chars r2
                        (rev (encode_unit (((a * 16 + b) * 16 + c') * 16 + d)) ++ acc)
                  | _, _, _, _ => None
                  end
              | _ => None
              end
            else
              match escape_val e with
              | Some x => parse_chars r1 (x :: acc)
              | None => None
              end
        end
      else if code c <? 32 then None
      else parse_chars r (c :: acc)
  end.

(** A run of decimal digits: its value, its length and the rest. *)
Fixpoint read_digits (cs : list ascii) (acc : Z) (n : Z) : Z * Z * list ascii :=
  match cs with
  | c :: r =>
      match digit_val c with
      | Some d => read_digits r (acc * 10 + d) (n + 1)
      | None => (acc, n, cs)
      end
  | [] => (acc, n, cs)
  end.

Definition parse_int (cs : list ascii) : option (Z * list ascii) :=
  match cs with
  | c :: r =>
      match digit_val c with
      | Some 0 => Some (0, r)
      | Some d => let '(v, _, r') := read_digits r d 1 in Some (v, r')
      | None => None
      end
  | [] => None
  end.

Definition parse_frac (int : Z) (cs : list ascii) : option (Z * Z * list ascii) :=
  match cs with
  | c :: r =>
      if code c =? 46 then
        let '(v, n, r') := read_digits r int 0 in
        if n =? 0 then None else Some (v, - n, r')
      else Some (int, 0, cs)
  | [] => Some (int, 0, cs)
  end.

Definition parse_exp (cs : list ascii) : option (Z * list ascii) :=
  match cs with
  | c :: r =>
      if (code c =? 101) || (code c =? 69) then
        let '(sign, r0) :=
          match r with
          | s :: r' =>
              if code s =? 43 then (1, r')
              else if code s =? 45 then (-1, r')
              else (1, r)
          | [] => (1, r)
          end in
        let '(v, n, r') := read_digits r0 0 0 in
        if n =? 0 then None else Some (sign * v, r')
      else Some (0, cs)
  | [] => Some (0, cs)
  end.

Definition parse_number (cs : list ascii) : option (json * list ascii) :=
  let '(sign, r0) :=
    match cs with
    | c :: r => if code c =? 45 then (-1, r) else (1, cs)
    | [] => (1, cs)
    end in
  '(i, r1) ← parse_int r0;
  '(m, e1, r2) ← parse_frac i r1;
  '(e2, r3) ← parse_exp r2;
  Some (JNumber (sign * m) (e1 + e2), r3).

Fixpoint strip_prefix (p cs : list ascii) : option (list ascii) :=
  match p, cs with
  | [], _ => Some cs
  | a :: p', c :: r => if code a =? code c then strip_prefix p' r else None
  | _ :: _, [] => None
  end.

Definition literal (word : string) (v : json) (cs : list ascii)
  : option (json * list ascii) :=
  r ← strip_prefix (list_ascii_of_string word) cs; Some (v, r).

(** [obj[k] = v] on an object under construction. *)
Fixpoint obj_put (k : string) (v : json) (o : list (string * json))
  : list (string * json) :=
  match o with
  | [] => [(k, v)]
  | (k', v') :: o' =>
      if String.eqb k k' then (k', v) :: o' else (k', v') :: obj_put k v o'
  end.

Definition obj_of_members (ms : list (string * json)) : list (string * json) :=
  fold_left (fun o kv => obj_put (fst kv) (snd kv) o) ms [].

Fixpoint parse_value (fuel : nat) (cs : list ascii) {struct fuel}
  : option (json * list ascii) :=
  match fuel with
  | O => None
  | S fuel' =>
      match skip_ws cs with
      | [] => None
      | c :: r =>
          let n := code c in
          if n =? 110 then literal "null" JNull (c :: r)
          else if n =? 116 then literal "true" (JBool true) (c :: r)
          else if n =? 102 then literal "false" (JBool false) (c :: r)
          else if n =? 34 then
            '(s, r') ← parse_chars r []; Some (JString s, r')
          else if n =? 91 then
            match skip_ws r with
            | c' :: r' =>
                if code c' =? 93 then Some (JArray [], r')
                else '(l, r'') ← parse_elements fuel' r; Some (JArray l, r'')
            | [] => None
            end
          else if n =? 123 then
            match skip_ws r with
            | c' :: r' =>
                if code c' =? 125 then Some (JObject [], r')
                else '(l, r'') ← parse_members fuel' r;
                     Some (JObject (obj_of_members l), r'')
            | [] => None
            end
          else parse_number (c :: r)
      end
  end
with parse_elements (fuel : nat) (cs : list ascii) {struct fuel}
  : option (list json * list ascii) :=
  match fuel with
  | O => None
  | S fuel' =>
      '(v, r) ← parse_value fuel' cs;
      match skip_ws r with
      | c :: r' =>
          if code c =? 44 then
            '(l, r'') ← parse_elements fuel' r'; Some (v :: l, r'')
          else if code c =? 93 then Some ([v], r')
          else None
      | [] => None
      end
  end
with parse_members (fuel : nat) (cs : list ascii) {struct fuel}
  : option (list (string * json) * list ascii) :=
  match fuel with
  | O => None
  | S fuel' =>
      match skip_ws cs with
      | q :: r0 =>
          if code q =? 34 then
            '(k, r1) ← parse_chars r0 [];
            match skip_ws r1 with
            | c :: r2 =>
                if code c =? 58 then
                  '(v, r3) ← parse_value fuel' r2;
                  match skip_ws r3 with
                  | d :: r4 =>
                      if code d =? 44 then
                        '(l, r5) ← parse_members fuel' r4; Some ((k, v) :: l, r5)
                      else if code d =? 125 then Some ([(k, v)], r4)
                      else None
                  | [] => None
                  end
                else None
            | [] => None
            end
          else None
      | [] => None
      end
  end.

(** [JSON.parse(text)]: one value, surrounded by white space only. The
    nesting of a text is bounded by its length, which is the fuel. *)
Definition parse (text : string) : option json :=
  let cs := list_ascii_of_string text in
  '(v, r) ← parse_value (S (length cs)) cs;
  match skip_ws r with
  | [] => Some v
  | _ :: _ => None
  end.

End JSON.

(** ** The wire data (the interfaces of message.ts) *)

(** An attachment as it comes on the wire, and the object that
    [transformAttachments] makes of it ([Attachment] or
    [ExternalAttachment]). *)
Record RawAttachment := {
  raw_type : string;
  raw_body : json
}.

Record Attachment := {
  attachment_type : string;
  canBeAttached : bool;
  isExternal : bool;
  attachment_body : json
}.

Record Geo := {
  geo_type : string;
  geo_coordinates : json;
  geo_place : option json
}.

Inductive MessageContextPayloadEventType :=
| chat_photo_update
| chat_photo_remove
| chat_create
| chat_title_update
| chat_invite_user
| chat_kick_user
| chat_pin_message
| chat_unpin_message
| chat_invite_user_by_link.

Definition eventTypeName (e : MessageContextPayloadEventType) : string :=
  match e with
  | chat_photo_update => "chat_photo_update"
  | chat_photo_remove => "chat_photo_remove"
  | chat_create => "chat_create"
  | chat_title_update => "chat_title_update"
  | chat_invite_user => "chat_invite_user"
  | chat_kick_user => "chat_kick_user"
  | chat_pin_message => "chat_pin_message"
  | chat_unpin_message => "chat_unpin_message"
  | chat_invite_user_by_link => "chat_invite_user_by_link"
  end.

Record Action := {
  action_type : MessageContextPayloadEventType;
  member_id : Z;
  action_text : option string;
  action_email : option string;
  action_photo : option json
}.

(** Modelled from the spec: [IMessageReplyPayload] is declared in
    shared/message-reply, which is not among the sources; the spec gives a
    reply fragment its id, text, peer and sender ids, timestamps and
    attachments. *)
Record IMessageReplyPayload := {
  reply_id : Z;
  reply_conversation_message_id : Z;
  reply_peer_id : Z;
  reply_from_id : Z;
  reply_text : option string;
  reply_date : Z;
  reply_update_time : option Z;
  reply_attachments : list RawAttachment
}.

(** Modelled from the spec: [IMessageForwardPayload] is declared in
    shared/message-forward, which is not among the sources; a forwarded
    fragment may itself carry forwarded fragments. *)
Inductive IMessageForwardPayload :=
| ForwardPayload (forward_from_id : Z) (forward_text : option string)
    (forward_date : Z) (forward_update_time : option Z)
    (forward_attachments : list RawAttachment)
    (forward_fwd_messages : list IMessageForwardPayload).

Inductive ButtonAction :=
| button_text
| button_vkpay
| button_open_app
| button_location
| button_open_link
| button_callback.

Record ClientInfo := {
  button_actions : list ButtonAction;
  keyboard : bool;
  inline_keyboard : bool;
  carousel : bool;
  lang_id : Z
}.

(** [IMessageContextPayload['message']] *)
Module Msg.
Record t := {
  id : Z;
  conversation_message_id : Z;
  out : Z;
  peer_id : Z;
  from_id : Z;
  text : option string;
  date : Z;
  update_time : option Z;
  random_id : Z;
  ref : option string;
  ref_source : option string;
  attachments : list RawAttachment;
  important : bool;
  geo : option Geo;
  payload : option string;
  reply_message : option IMessageReplyPayload;
  fwd_messages : option (list IMessageForwardPayload);
  action : option Action
}.

(** [message.important = b] *)
Definition set_important (b : bool) (m : t) : t :=
  {| id := id m; conversation_message_id := conversation_message_id m;
     out := out m; peer_id := peer_id m; from_id := from_id m;
     text := text m; date := date m; update_time := update_time m;
     random_id := random_id m; ref := ref m; ref_source := ref_source m;
     attachments := attachments m; important := b; geo := geo m;
     payload := payload m; reply_message := reply_message m;
     fwd_messages := fwd_messages m; action := action m |}.
End Msg.

(** [IMessageContextPayload] *)
Module Payload.
Record t := {
  message : Msg.t;
  client_info : ClientInfo
}.
End Payload.

(** The argument of [applyPayload]:
    [IMessageContextPayload | IMessageContextPayload['message']]. The test
    ['client_info' in payload] tells the two apart. *)
Inductive PayloadInput :=
| Enveloped (p : Payload.t)
| Bare (m : Msg.t).

Inductive UpdateSource := POLLING | WEBHOOK.

(** A long-poll update, the argument of [transformMessage]. *)
Definition PollingUpdate : Type := list json.

Inductive UpdateType :=
| UpdateNumber (n : Z)
| UpdateName (s : string).

(** ** Errors and completions *)

Inductive Error :=
| VKError (code message : string)
| SyntaxError
| TypeError
| RemoteError (reason : string).

Inductive Completion (A : Type) : Type :=
| Return (a : A)
| Throw (e : Error).
Arguments Return {A} a.
Arguments Throw {A} e.

(** ** Truthiness *)

(** [Boolean(s)] for a string or undefined. *)
Definition truthy (s : option string) : bool :=
  match s with
  | Some s => negb (String.eqb s "")
  | None => false
  end.

(** [Boolean(n)] for an integer. *)
Definition truthyZ (n : Z) : bool := negb (n =? 0).

(** [Number(b)] *)
Definition NumberOfBool (b : bool) : Z := if b then 1 else 0.

(** ** The imported helpers

    utils/helpers, utils/constants, attachments/helpers and
    updates/transform-message are not among the sources; what
    [MessageContext] imports from them is taken as a parameter. *)
Class Imports := {
  unescapeHTML : string -> string;
  getPeerType : Z -> string;
  transformAttachments : list RawAttachment -> list Attachment;
  transformMessage : PollingUpdate -> Msg.t;
  CHAT_PEER : Z;
  MessageSource_USER : string;
  MessageSource_CHAT : string;
  MessageSource_GROUP : string
}.

(** ** The collaborators

    The API client, the upload client, the clock and [getRandomId] are
    outside the class. A use of one of them is a request; what comes back
    is a completion of the type of its response: the resolved value, or
    the error of a rejected promise. *)
Inductive Request :=
| messages_getById (message_ids : Z)
| messages_getByConversationMessageId (peer_id conversation_message_ids : Z)
| messages_send (options : gmap string json)
| messages_markAsImportant (important : Z) (message_ids : list Z)
| messages_editChat (chat_id : option Z) (title : string)
| messages_deleteChatPhoto (chat_id : option Z)
| messages_addChatUser (chat_id user_id : option Z)
| messages_removeChatUser (chat_id member_id : option Z)
| messages_pin (peer_id message_id : Z)
| messages_unpin (peer_id message_id : Z)
| upload_chatPhoto (params : gmap string json) (chat_id : option Z) (source : json)
| getRandomId
| Date_now.

Definition Response (r : Request) : Type :=
  match r with
  | messages_getById _ => list Msg.t
  | messages_getByConversationMessageId _ _ => list Msg.t
  | messages_send _ => Z
  | messages_markAsImportant _ _ => list Z
  | messages_editChat _ _ => Z
  | messages_deleteChatPhoto _ => json
  | messages_addChatUser _ _ => Z
  | messages_removeChatUser _ _ => Z
  | messages_pin _ _ => Z
  | messages_unpin _ _ => Z
  | upload_chatPhoto _ _ _ => json
  | getRandomId => Z
  | Date_now => Z
  end.

(** Whether a request is a remote call (of the API or upload client). *)
Definition isRemote (r : Request) : bool :=
  match r with
  | getRandomId | Date_now => false
  | _ => true
  end.

(** A computation that talks to the collaborators: it is done, or it
    issues a request and goes on with what comes back. *)
Inductive Async (R : Type) : Type :=
| Done (r : R)
| Call (req : Request) (k : Completion (Response req) -> Async R).
Arguments Done {R} r.
Arguments Call {R} req k.

Fixpoint bindAsync {R S : Type} (p : Async R) (f : R -> Async S) : Async S :=
  match p with
  | Done r => f r
  | Call req k => Call req (fun c => bindAsync (k c) f)
  end.

(** The collaborators as seen from a run: given the requests issued so
    far, the completion of the next one. *)
Definition Handler : Type :=
  list Request -> forall req : Request, Completion (Response req).

(** Runs a computation against a handler; returns the requests issued, in
    order, and the result. *)
Fixpoint exec {R : Type} (h : Handler) (log : list Request) (p : Async R)
  : list Request * R :=
  match p with
  | Done r => (log, r)
  | Call req k => exec h (log ++ [req]) (k (h log req))
  end.

Definition run {R : Type} (h : Handler) (p : Async R) : list Request * R :=
  exec h [] p.

(** ** The embedded message views *)

(** Modelled from the spec: [MessageReply] (shared/message-reply) is not
    among the sources. The spec makes it a wrapper of one fragment that
    exposes the fragment's attachments as an attachment view. *)
Record MessageReply := {
  reply_payload : IMessageReplyPayload;
  reply_view : list Attachment
}.

(** Modelled from the spec: [MessageForward] (shared/message-forward) is
    not among the sources. The spec makes it a wrapper equivalent to the
    reply view, over a forwarded fragment, which may hold forwarded
    fragments of its own. *)
Inductive MessageForward :=
| Forward (forward_payload : IMessageForwardPayload)
    (forward_view : list Attachment)
    (forward_forwards : list MessageForward).

Definition forward_attachments_of (f : MessageForward) : list Attachment :=
  match f with Forward _ v _ => v end.

Definition forward_nested (f : MessageForward) : list MessageForward :=
  match f with Forward _ _ n => n end.

(** [MessageForwardsCollection], an array of [MessageForward]. *)
Definition MessageForwardsCollection : Type := list MessageForward.

(** Modelled from the spec: [Attachmentable] (shared/attachmentable) is
    not among the sources. By the spec [has(kind?)] is true if an
    attachment has the kind, or, without a kind, if there is an
    attachment; [get(kind)] is the attachments of that kind in their
    original order, all of them without a kind. *)
Module Attachmentable.
Definition matches (type : option string) (a : Attachment) : bool :=
  match type with
  | Some t => String.eqb (attachment_type a) t
  | None => true
  end.

Definition hasAttachments (attachments : list Attachment) (type : option string)
  : bool :=
  existsb (matches type) attachments.

Definition getAttachments (attachments : list Attachment) (type : option string)
  : list Attachment :=
  List.filter (matches type) attachments.
End Attachmentable.

(** Modelled from the spec: the attachment lookup of
    [MessageForwardsCollection] (shared/message-forwards-collection, not
    among the sources) goes over the own attachments of every element, in
    chain order, and does not enter the forwards of an element. *)
Module Forwards.
Definition hasAttachments (forwards : MessageForwardsCollection)
  (type : option string) : bool :=
  existsb (fun f => Attachmentable.hasAttachments (forward_attachments_of f) type)
    forwards.

Definition getAttachments (forwards : MessageForwardsCollection)
  (type : option string) : list Attachment :=
  List.concat
    (List.map (fun f => Attachmentable.getAttachments (forward_attachments_of f) type)
       forwards).
End Forwards.

(** ** The message context *)

Record MessageContext := {
  payload : Payload.t;
  text : option string;
  filled : bool;                                (* $filled *)
  kForwards : MessageForwardsCollection;
  kReplyMessage : option MessageReply;
  kAttachments : list Attachment;
  kMessagePayload : option json;
  matched : option (list string);               (* $match *)
  subTypes : list UpdateType;
  groupId : option Z;                           (* $groupId *)
  state : json
}.

Definition set_payload (v : Payload.t) (c : MessageContext) : MessageContext :=
  {| payload := v; text := text c; filled := filled c; kForwards := kForwards c;
     kReplyMessage := kReplyMessage c; kAttachments := kAttachments c;
     kMessagePayload := kMessagePayload c; matched := matched c;
     subTypes := subTypes c; groupId := groupId c; state := state c |}.

Definition set_text (v : option string) (c : MessageContext) : MessageContext :=
  {| payload := payload c; text := v; filled := filled c; kForwards := kForwards c;
     kReplyMessage := kReplyMessage c; kAttachments := kAttachments c;
     kMessagePayload := kMessagePayload c; matched := matched c;
     subTypes := subTypes c; groupId := groupId c; state := state c |}.

Definition set_filled (v : bool) (c : MessageContext) : MessageContext :=
  {| payload := payload c; text := text c; filled := v; kForwards := kForwards c;
     kReplyMessage := kReplyMessage c; kAttachments := kAttachments c;
     kMessagePayload := kMessagePayload c; matched := matched c;
     subTypes := subTypes c; groupId := groupId c; state := state c |}.

Definition set_kForwards (v : MessageForwardsCollection) (c : MessageContext)
  : MessageContext :=
  {| payload := payload c; text := text c; filled := filled c; kForwards := v;
     kReplyMessage := kReplyMessage c; kAttachments := kAttachments c;
     kMessagePayload := kMessagePayload c; matched := matched c;
     subTypes := subTypes c; groupId := groupId c; state := state c |}.

Definition set_kReplyMessage (v : option MessageReply) (c : MessageContext)
  : MessageContext :=
  {| payload := payload c; text := text c; filled := filled c; kForwards := kForwards c;
     kReplyMessage := v; kAttachments := kAttachments c;
     kMessagePayload := kMessagePayload c; matched := matched c;
     subTypes := subTypes c; groupId := groupId c; state := state c |}.

Definition set_kAttachments (v : list Attachment) (c : MessageContext)
  : MessageContext :=
  {| payload := payload c; text := text c; filled := filled c; kForwards := kForwards c;
     kReplyMessage := kReplyMessage c; kAttachments := v;
     kMessagePayload := kMessagePayload c; matched := matched c;
     subTypes := subTypes c; groupId := groupId c; state := state c |}.

Definition set_kMessagePayload (v : option json) (c : MessageContext)
  : MessageContext :=
  {| payload := payload c; text := text c; filled := filled c; kForwards := kForwards c;
     kReplyMessage := kReplyMessage c; kAttachments := kAttachments c;
     kMessagePayload := v; matched := matched c;
     subTypes := subTypes c; groupId := groupId c; state := state c |}.

Definition set_subTypes (v : list UpdateType) (c : MessageContext) : MessageContext :=
  {| payload := payload c; text := text c; filled := filled c; kForwards := kForwards c;
     kReplyMessage := kReplyMessage c; kAttachments := kAttachments c;
     kMessagePayload := kMessagePayload c; matched := matched c;
     subTypes := v; groupId := groupId c; state := state c |}.

(** [this.message.important = b]: [message] is an alias of
    [payload.message], the assignment changes the payload in place. *)
Definition set_message_important (b : bool) (c : MessageContext) : MessageContext :=
  set_payload
    {| Payload.message := Msg.set_important b (Payload.message (payload c));
       Payload.client_info := Payload.client_info (payload c) |} c.

(** A method: it reads and changes [this], talks to the collaborators and
    completes with a value or an exception. *)
Definition M (A : Type) : Type :=
  MessageContext -> Async (MessageContext * Completion A).

Definition ret {A} (a : A) : M A := fun this => Done (this, Return a).

Definition throw {A} (e : Error) : M A := fun this => Done (this, Throw e).

Definition bind {A B} (m : M A) (f : A -> M B) : M B :=
  fun this =>
    bindAsync (m this)
      (fun r =>
         match snd r with
         | Return a => f a (fst r)
         | Throw e => Done (fst r, Throw e)
         end).

(** [await] of a request: a rejection is thrown on. *)
Definition await (req : Request) : M (Response req) :=
  fun this => Call req (fun c => Done (this, c)).

Definition getThis : M MessageContext := fun this => Done (this, Return this).

Definition modify (f : MessageContext -> MessageContext) : M unit :=
  fun this => Done (f this, Return tt).

(** A synchronous method used from an asynchronous one. *)
Definition sync {A} (f : MessageContext -> MessageContext * Completion A) : M A :=
  fun this => Done (f this).

Declare Scope method_scope.
Delimit Scope method_scope with method.
Notation "'let*' x := m 'in' k" := (bind m (fun x => k))
  (at level 10, x name, m at level 100, k at level 200) : method_scope.
Notation "m ;;; k" := (bind m (fun _ => k))
  (at level 100, k at level 200, right associativity) : method_scope.


Section Model.
Context `{!Imports}.

Local Open Scope method_scope.

(** Modelled from the spec: the constructor of [MessageReply] builds the
    attachment view of the fragment it wraps. *)
Definition new_MessageReply (p : IMessageReplyPayload) : MessageReply :=
  {| reply_payload := p;
     reply_view := transformAttachments (reply_attachments p) |}.

(** Modelled from the spec: the constructor of [MessageForward] builds the
    attachment view of the fragment and wraps its forwards in turn. *)
Fixpoint new_MessageForward (p : IMessageForwardPayload) : MessageForward :=
  match p with
  | ForwardPayload _ _ _ _ atts fwd =>
      Forward p (transformAttachments atts) (List.map new_MessageForward fwd)
  end.

(** *** Plain accessors *)

(** [protected get message()] *)
Definition message (this : MessageContext) : Msg.t :=
  Payload.message (payload this).

Definition hasText (this : MessageContext) : bool := truthy (text this).

Definition replyMessage (this : MessageContext) : option MessageReply :=
  kReplyMessage this.

Definition forwards (this : MessageContext) : MessageForwardsCollection :=
  kForwards this.

Definition attachments (this : MessageContext) : list Attachment :=
  kAttachments this.

Definition messagePayload (this : MessageContext) : option json :=
  kMessagePayload this.

Definition hasReplyMessage (this : MessageContext) : bool :=
  bool_decide (is_Some (replyMessage this)).

Definition hasForwards (this : MessageContext) : bool :=
  bool_decide (0 < length (forwards this))%nat.

Definition hasMessagePayload (this : MessageContext) : bool :=
  truthy (Msg.payload (message this)).

Definition hasGeo (this : MessageContext) : bool :=
  bool_decide (is_Some (Msg.geo (message this))).

Definition id (this : MessageContext) : Z := Msg.id (message this).

Definition conversationMessageId (this : MessageContext) : Z :=
  Msg.conversation_message_id (message this).

Definition peerId (this : MessageContext) : Z := Msg.peer_id (message this).

Definition peerType (this : MessageContext) : string :=
  getPeerType (Msg.peer_id (message this)).

Definition senderId (this : MessageContext) : Z := Msg.from_id (message this).

Definition senderType (this : MessageContext) : string :=
  getPeerType (Msg.from_id (message this)).

Definition isChat (this : MessageContext) : bool :=
  String.eqb (peerType this) MessageSource_CHAT.

Definition isUser (this : MessageContext) : bool :=
  String.eqb (senderType this) MessageSource_USER.

Definition isGroup (this : MessageContext) : bool :=
  String.eqb (senderType this) MessageSource_GROUP.

Definition isFromUser (this : MessageContext) : bool :=
  String.eqb (peerType this) MessageSource_USER.

Definition isFromGroup (this : MessageContext) : bool :=
  String.eqb (peerType this) MessageSource_GROUP.

Definition isDM (this : MessageContext) : bool :=
  isFromUser this || isFromGroup this.

Definition eventType (this : MessageContext) : option MessageContextPayloadEventType :=
  action_type <$> Msg.action (message this).

Definition eventMemberId (this : MessageContext) : option Z :=
  member_id <$> Msg.action (message this).

Definition eventText (this : MessageContext) : option string :=
  Msg.action (message this) ≫= action_text.

Definition eventEmail (this : MessageContext) : option string :=
  Msg.action (message this) ≫= action_email.

Definition isEvent (this : MessageContext) : bool :=
  bool_decide (is_Some (eventType this)).

Definition isOutbox (this : MessageContext) : bool :=
  truthyZ (Msg.out (message this)).

Definition isInbox (this : MessageContext) : bool := negb (isOutbox this).

Definition isImportant (this : MessageContext) : bool :=
  Msg.important (message this).

Definition chatId (this : MessageContext) : option Z :=
  if negb (isChat this) then None else Some (peerId this - CHAT_PEER).

Definition referralValue (this : MessageContext) : option string :=
  Msg.ref (message this).

Definition referralSource (this : MessageContext) : option string :=
  Msg.ref_source (message this).

Definition createdAt (this : MessageContext) : Z := Msg.date (message this).

Definition updatedAt (this : MessageContext) : option Z :=
  Msg.update_time (message this).

Definition clientInfo (this : MessageContext) : ClientInfo :=
  Payload.client_info (payload this).

Definition PAYLOAD_IS_NOT_FULL : Error :=
  VKError "PAYLOAD_IS_NOT_FULL" "The message payload is not fully loaded".

Definition IS_NOT_CHAT : Error :=
  VKError "IS_NOT_CHAT" "This method is only available in chat".

(** [get geo()] *)
Definition geo (this : MessageContext) : Completion (option Geo) :=
  if negb (hasGeo this) then Return None
  else if negb (filled this) then Throw PAYLOAD_IS_NOT_FULL
  else Return (Msg.geo (message this)).

(** *** [applyPayload] *)

(** The capabilities given to a payload that has no [client_info]. *)
Definition defaultClientInfo : ClientInfo :=
  {| button_actions := [button_text];
     inline_keyboard := false;
     keyboard := true;
     carousel := false;
     lang_id := 0 |}.

(** The first statement of [applyPayload], the "polyfill for all events
    except new_message". *)
Definition polyfill (input : PayloadInput) : Payload.t :=
  match input with
  | Enveloped p => p
  | Bare m => {| Payload.message := m; Payload.client_info := defaultClientInfo |}
  end.

Definition applyPayload (this : MessageContext) (input : PayloadInput)
  : MessageContext * Completion unit :=
  let payload := polyfill input in
  let this := set_payload payload this in
  let text := Msg.text (Payload.message payload) in
  let this := set_text (if truthy text then unescapeHTML <$> text else None) this in
  let message := message this in
  let this := set_kAttachments (transformAttachments (Msg.attachments message)) this in
  let this :=
    match Msg.reply_message message with
    | Some reply => set_kReplyMessage (Some (new_MessageReply reply)) this
    | None => this
    end in
  let this :=
    set_kForwards
      (List.map new_MessageForward (default [] (Msg.fwd_messages message))) this in
  if truthy (Msg.payload message) then
    match JSON.parse (default "" (Msg.payload message)) with
    | Some value => (set_kMessagePayload (Some value) this, Return tt)
    | None => (this, Throw SyntaxError)
    end
  else (this, Return tt).

(** *** The constructor *)

Definition payloadOf (source : UpdateSource) : Type :=
  match source with
  | POLLING => PollingUpdate
  | WEBHOOK => PayloadInput
  end.

Record MessageContextOptions := {
  source : UpdateSource;
  options_payload : payloadOf source;
  updateType : UpdateType;
  options_groupId : option Z;
  options_state : json
}.

(** [subTypesEnum[updateType]]; the key of a property is the number or
    its decimal string. *)
Definition subTypesEnum (u : UpdateType) : option string :=
  match u with
  | UpdateNumber 4 | UpdateName "4" => Some "message_new"
  | UpdateNumber 5 | UpdateName "5" => Some "message_edit"
  | _ => None
  end.

(** The object before [applyPayload] runs: the fields the class declares
    are undefined. The record needs a payload, it is the one
    [applyPayload] is about to assign. *)
Definition allocate (options : MessageContextOptions) (p : Payload.t)
  : MessageContext :=
  {| payload := p; text := None; filled := false; kForwards := [];
     kReplyMessage := None; kAttachments := []; kMessagePayload := None;
     matched := None; subTypes := [];
     groupId := options_groupId options; state := options_state options |}.

Definition new_MessageContext (options : MessageContextOptions)
  : Completion MessageContext :=
  let '(isFilled, input) :=
    match source options as s return payloadOf s -> bool * PayloadInput with
    | POLLING => fun update => (false, Bare (transformMessage update))
    | WEBHOOK => fun p => (true, p)
    end (options_payload options) in
  let this := set_filled isFilled (allocate options (polyfill input)) in
  let '(this, completion) := applyPayload this input in
  match completion with
  | Throw e => Throw e
  | Return _ =>
      let subType :=
        match eventType this with
        | Some e => UpdateName (eventTypeName e)
        | None =>
            match subTypesEnum (updateType options) with
            | Some name => UpdateName name
            | None => updateType options
            end
        end in
      Return (set_subTypes [subType] this)
  end.

(** *** [loadMessagePayload] *)

Definition loadMessagePayload (force : bool) : M unit :=
  let* this := getThis in
  if filled this && negb force then ret tt
  else
    let* items :=
      (if negb (id this =? 0) return M (list Msg.t)
       then await (messages_getById (id this))
       else await (messages_getByConversationMessageId
                     (peerId this) (conversationMessageId this))) in
    match items with
    | [] =>
        (* [applyPayload(undefined)]: the operator [in] throws *)
        throw TypeError
    | message :: _ =>
        sync (fun this => applyPayload this (Bare message));;;
        modify (set_filled true)
    end.

(** *** [send] and what is built on it *)

Definition jnumber (n : Z) : json := JNumber n 0.

(** The first argument of [send]: [string | IMessageContextSendOptions]. *)
Inductive Content :=
| Text (s : string)
| Options (o : gmap string json).

(** [typeof text !== 'object' ? { message: text, ...params } : text] *)
Definition contentOptions (text : Content) (params : option (gmap string json))
  : gmap string json :=
  match text with
  | Text s => default ∅ params ∪ {[ "message" := JString s ]}
  | Options o => o
  end.

(** [options.text], a string when there is one. *)
Definition optionsText (options : gmap string json) : option string :=
  match options !! "text" with
  | Some (JString s) => Some s
  | _ => None
  end.

Definition complete {A} (c : Completion A) : M A := fun this => Done (this, c).

Definition send (text : Content) (params : option (gmap string json))
  : M MessageContext :=
  let* randomId := await getRandomId in
  let* this := getThis in
  let options :=
    contentOptions text params
    ∪ {[ "peer_id" := jnumber (peerId this); "random_id" := jnumber randomId ]} in
  let* id := await (messages_send options) in
  let* this := getThis in
  let message := message this in
  let* now := await Date_now in
  let* messageContext :=
    complete (new_MessageContext
      {| source := WEBHOOK;
         options_groupId := groupId this;
         updateType := UpdateName "message_new";
         options_state := state this;
         options_payload := Enveloped
           {| Payload.client_info := clientInfo this;
              Payload.message :=
                {| Msg.id := id;
                   Msg.conversation_message_id := 0;
                   Msg.from_id := Msg.from_id message;
                   Msg.peer_id := Msg.peer_id message;
                   Msg.out := 1;
                   Msg.important := false;
                   Msg.random_id := randomId;
                   Msg.text := optionsText options;
                   Msg.date := now / 1000;
                   Msg.attachments := [];
                   Msg.update_time := None; Msg.ref := None;
                   Msg.ref_source := None; Msg.geo := None;
                   Msg.payload := None; Msg.reply_message := None;
                   Msg.fwd_messages := None; Msg.action := None |} |} |}) in
  ret (set_filled false messageContext).

Definition reply (text : Content) (params : option (gmap string json))
  : M MessageContext :=
  let* this := getThis in
  send (Options (contentOptions text params ∪ {[ "reply_to" := jnumber (id this) ]}))
    None.

Definition sendSticker (sticker : Z) : M MessageContext :=
  send (Options {[ "sticker_id" := jnumber sticker ]}) None.

(** *** [markAsImportant] *)

(** [ids.includes(x)] *)
Definition includes (x : Z) (ids : list Z) : bool := existsb (Z.eqb x) ids.

Definition markAsImportant (ids : option (list Z)) (important : option Z)
  : M (list Z) :=
  let* this := getThis in
  let ids := default [id this] ids in
  let important := default (NumberOfBool (negb (isImportant this))) important in
  let* messageIds := await (messages_markAsImportant important ids) in
  let* this := getThis in
  (if includes (id this) messageIds
   then modify (set_message_important (truthyZ important))
   else ret tt);;;
  ret messageIds.

(** *** The chat-only operations *)

Definition assertIsChat : M unit :=
  let* this := getThis in
  if negb (isChat this) then throw IS_NOT_CHAT else ret tt.

Definition renameChat (title : string) : M bool :=
  assertIsChat;;;
  let* this := getThis in
  let* isRenamed := await (messages_editChat (chatId this) title) in
  ret (truthyZ isRenamed).

Definition newChatPhoto (source : json) (params : option (gmap string json))
  : M json :=
  assertIsChat;;;
  let* this := getThis in
  let* response := await (upload_chatPhoto (default ∅ params) (chatId this) source) in
  ret response.

Definition deleteChatPhoto : M bool :=
  assertIsChat;;;
  let* this := getThis in
  let* _ := await (messages_deleteChatPhoto (chatId this)) in
  ret true.

Definition inviteUser (user : option Z) : M bool :=
  let* this := getThis in
  let user := from_option Some (eventMemberId this) user in
  assertIsChat;;;
  let* isInvited := await (messages_addChatUser (chatId this) user) in
  ret (truthyZ isInvited).

Definition kickUser (user : option Z) : M bool :=
  let* this := getThis in
  let user := from_option Some (eventMemberId this) user in
  assertIsChat;;;
  let* isKicked := await (messages_removeChatUser (chatId this) user) in
  ret (truthyZ isKicked).

Definition pinMessage : M bool :=
  assertIsChat;;;
  let* this := getThis in
  let* isPinned := await (messages_pin (peerId this) (id this)) in
  ret (truthyZ isPinned).

Definition unpinMessage : M bool :=
  assertIsChat;;;
  let* this := getThis in
  let* isUnpinned := await (messages_unpin (peerId this) (id this)) in
  ret (truthyZ isUnpinned).

(** *** The serialised projection, [kSerializeData] *)

Inductive PropertyValue :=
| PUndefined
| PNumber (n : Z)
| PString (s : string)
| PBoolean (b : bool)
| PAny (v : json)
| PForwards (l : MessageForwardsCollection)
| PAttachments (l : list Attachment)
| PReply (r : MessageReply)
| PMatch (m : list string).

Definition orUndefined {A} (f : A -> PropertyValue) (o : option A) : PropertyValue :=
  from_option f PUndefined o.

(** [this[property]] for the properties the projection can name. *)
Definition property (this : MessageContext) (name : string) : PropertyValue :=
  if String.eqb name "id" then PNumber (id this)
  else if String.eqb name "conversationMessageId" then PNumber (conversationMessageId this)
  else if String.eqb name "peerId" then PNumber (peerId this)
  else if String.eqb name "peerType" then PString (peerType this)
  else if String.eqb name "senderId" then PNumber (senderId this)
  else if String.eqb name "senderType" then PString (senderType this)
  else if String.eqb name "createdAt" then PNumber (createdAt this)
  else if String.eqb name "updatedAt" then orUndefined PNumber (updatedAt this)
  else if String.eqb name "text" then orUndefined PString (text this)
  else if String.eqb name "eventType"
    then orUndefined (fun e => PString (eventTypeName e)) (eventType this)
  else if String.eqb name "eventMemberId" then orUndefined PNumber (eventMemberId this)
  else if String.eqb name "eventText" then orUndefined PString (eventText this)
  else if String.eqb name "eventEmail" then orUndefined PString (eventEmail this)
  else if String.eqb name "replyMessage" then orUndefined PReply (replyMessage this)
  else if String.eqb name "forwards" then PForwards (forwards this)
  else if String.eqb name "attachments" then PAttachments (attachments this)
  else if String.eqb name "messagePayload" then orUndefined PAny (messagePayload this)
  else if String.eqb name "isOutbox" then PBoolean (isOutbox this)
  else if String.eqb name "referralValue" then orUndefined PString (referralValue this)
  else if String.eqb name "referralSource" then orUndefined PString (referralSource this)
  else if String.eqb name "$match" then orUndefined PMatch (matched this)
  else PUndefined.

(** Modelled from the spec: [pickProperties] (utils/helpers) is not among
    the sources; the spec makes the projection the named fields, in the
    order of the names. *)
Definition pickProperties (this : MessageContext) (properties : list string)
  : list (string * PropertyValue) :=
  List.map (fun name => (name, property this name)) properties.

Definition beforeAttachments (this : MessageContext) : list string :=
  (if isEvent this
   then ["eventType"; "eventMemberId"; "eventText"; "eventEmail"] else [])
  ++ (if hasReplyMessage this then ["replyMessage"] else []).

Definition afterAttachments (this : MessageContext) : list string :=
  (if hasMessagePayload this then ["messagePayload"] else [])
  ++ ["isOutbox"]
  ++ (if truthy (referralValue this) then ["referralValue"; "referralSource"] else [])
  ++ (if bool_decide (is_Some (matched this)) then ["$match"] else []).

(** The names [kSerializeData] hands to [pickProperties]. *)
Definition serializedProperties (this : MessageContext) : list string :=
  ["id"; "conversationMessageId"; "peerId"; "peerType"; "senderId";
   "senderType"; "createdAt"; "updatedAt"; "text"]
  ++ beforeAttachments this
  ++ ["forwards"; "attachments"]
  ++ afterAttachments this.

Definition kSerializeData (this : MessageContext) : list (string * PropertyValue) :=
  pickProperties this (serializedProperties this).

(** *** The mixin [AllAttachmentable] *)

Definition hasAttachments (this : MessageContext) (type : option string) : bool :=
  Attachmentable.hasAttachments (attachments this) type.

Definition getAttachments (this : MessageContext) (type : option string)
  : list Attachment :=
  Attachmentable.getAttachments (attachments this) type.

Definition hasAllAttachments (this : MessageContext) (type : option string) : bool :=
  hasAttachments this type
  || from_option (fun r => Attachmentable.hasAttachments (reply_view r) type)
       false (replyMessage this)
  || Forwards.hasAttachments (forwards this) type.

Definition getAllAttachments (this : MessageContext) (type : string)
  : list Attachment :=
  getAttachments this (Some type)
  ++ from_option (fun r => Attachmentable.getAttachments (reply_view r) (Some type))
       [] (replyMessage this)
  ++ Forwards.getAttachments (forwards this) (Some type).

(** *** Names for the statements *)

(** The fragment that [applyPayload] works on. *)
Definition fragment (input : PayloadInput) : Msg.t :=
  Payload.message (polyfill input).

(** The request by which a view fetches its full fragment. *)
Definition fetchRequest (this : MessageContext) : Request :=
  if id this =? 0
  then messages_getByConversationMessageId (peerId this) (conversationMessageId this)
  else messages_getById (id this).

(** The options [send] hands to [messages.send]. *)
Definition sentOptions (this : MessageContext) (text : Content)
  (params : option (gmap string json)) (randomId : Z) : gmap string json :=
  contentOptions text params
  ∪ {[ "peer_id" := jnumber (peerId this); "random_id" := jnumber randomId ]}.

End Model.

(** ** A concrete setting

    To run the model on examples the imports need values. These are
    stand-ins with the shape the spec gives the helpers: peers above
    [CHAT_PEER] are chats, negative ones groups, the others users; the
    entities of the four reserved characters and the line break are
    unescaped; an attachment keeps the type of the wire record; a
    long-poll update [[kind, id, flags, peer, ts, text]] is read by
    position. No general theorem below depends on them. *)
Module Sample.

Definition starts (word : string) (cs : list ascii) : bool :=
  match JSON.strip_prefix (list_ascii_of_string word) cs with
  | Some _ => true
  | None => false
  end.

(** [skip] counts the characters of an entity still to drop. *)
Fixpoint unescape (skip : nat) (cs : list ascii) : list ascii :=
  match cs with
  | [] => []
  | c :: r =>
      match skip with
      | S k => unescape k r
      | O =>
          if starts "&lt;" cs then JSON.chr 60 :: unescape 3 r
          else if starts "&gt;" cs then JSON.chr 62 :: unescape 3 r
          else if starts "&amp;" cs then JSON.chr 38 :: unescape 4 r
          else if starts "&quot;" cs then JSON.chr 34 :: unescape 5 r
          else if starts "<br>" cs then JSON.chr 10 :: unescape 3 r
          else c :: unescape 0 r
      end
  end.

Definition jsonNumber (j : option json) : Z :=
  match j with
  | Some (JNumber m 0) => m
  | _ => 0
  end.

Definition jsonString (j : option json) : option string :=
  match j with
  | Some (JString s) => Some s
  | _ => None
  end.

Definition decode (update : PollingUpdate) : Msg.t :=
  {| Msg.id := jsonNumber (update !! 1%nat);
     Msg.conversation_message_id := 0;
     Msg.out := 0;
     Msg.peer_id := jsonNumber (update !! 3%nat);
     Msg.from_id := jsonNumber (update !! 3%nat);
     Msg.text := jsonString (update !! 5%nat);
     Msg.date := jsonNumber (update !! 4%nat);
     Msg.update_time := None;
     Msg.random_id := 0;
     Msg.ref := None;
     Msg.ref_source := None;
     Msg.attachments := [];
     Msg.important := false;
     Msg.geo := None;
     Msg.payload := None;
     Msg.reply_message := None;
     Msg.fwd_messages := None;
     Msg.action := None |}.

#[export] Instance imports : Imports :=
  {| unescapeHTML := fun s =>
       string_of_list_ascii (unescape 0 (list_ascii_of_string s));
     getPeerType := fun peer =>
       if 2000000000 <? peer then "chat" else if peer <? 0 then "group" else "user";
     transformAttachments :=
       List.map (fun raw =>
         {| attachment_type := raw_type raw; canBeAttached := true;
            isExternal := false; attachment_body := raw_body raw |});
     transformMessage := decode;
     CHAT_PEER := 2000000000;
     MessageSource_USER := "user";
     MessageSource_CHAT := "chat";
     MessageSource_GROUP := "group" |}.

(** A message with the given id, peer and sender and nothing else. *)
Definition plain (id peer sender : Z) : Msg.t :=
  {| Msg.id := id;
     Msg.conversation_message_id := 0;
     Msg.out := 0;
     Msg.peer_id := peer;
     Msg.from_id := sender;
     Msg.text := None;
     Msg.date := 1600000000;
     Msg.update_time := None;
     Msg.random_id := 0;
     Msg.ref := None;
     Msg.ref_source := None;
     Msg.attachments := [];
     Msg.important := false;
     Msg.geo := None;
     Msg.payload := None;
     Msg.reply_message := None;
     Msg.fwd_messages := None;
     Msg.action := None |}.

Definition withText (s : option string) (m : Msg.t) : Msg.t :=
  {| Msg.id := Msg.id m; Msg.conversation_message_id := Msg.conversation_message_id m;
     Msg.out := Msg.out m; Msg.peer_id := Msg.peer_id m; Msg.from_id := Msg.from_id m;
     Msg.text := s; Msg.date := Msg.date m; Msg.update_time := Msg.update_time m;
     Msg.random_id := Msg.random_id m; Msg.ref := Msg.ref m;
     Msg.ref_source := Msg.ref_source m; Msg.attachments := Msg.attachments m;
     Msg.important := Msg.important m; Msg.geo := Msg.geo m;
     Msg.payload := Msg.payload m; Msg.reply_message := Msg.reply_message m;
     Msg.fwd_messages := Msg.fwd_messages m; Msg.action := Msg.action m |}.

Definition withPayload (s : option string) (m : Msg.t) : Msg.t :=
  {| Msg.id := Msg.id m; Msg.conversation_message_id := Msg.conversation_message_id m;
     Msg.out := Msg.out m; Msg.peer_id := Msg.peer_id m; Msg.from_id := Msg.from_id m;
     Msg.text := Msg.text m; Msg.date := Msg.date m; Msg.update_time := Msg.update_time m;
     Msg.random_id := Msg.random_id m; Msg.ref := Msg.ref m;
     Msg.ref_source := Msg.ref_source m; Msg.attachments := Msg.attachments m;
     Msg.important := Msg.important m; Msg.geo := Msg.geo m;
     Msg.payload := s; Msg.reply_message := Msg.reply_message m;
     Msg.fwd_messages := Msg.fwd_messages m; Msg.action := Msg.action m |}.

Definition withGeo (g : option Geo) (m : Msg.t) : Msg.t :=
  {| Msg.id := Msg.id m; Msg.conversation_message_id := Msg.conversation_message_id m;
     Msg.out := Msg.out m; Msg.peer_id := Msg.peer_id m; Msg.from_id := Msg.from_id m;
     Msg.text := Msg.text m; Msg.date := Msg.date m; Msg.update_time := Msg.update_time m;
     Msg.random_id := Msg.random_id m; Msg.ref := Msg.ref m;
     Msg.ref_source := Msg.ref_source m; Msg.attachments := Msg.attachments m;
     Msg.important := Msg.important m; Msg.geo := g;
     Msg.payload := Msg.payload m; Msg.reply_message := Msg.reply_message m;
     Msg.fwd_messages := Msg.fwd_messages m; Msg.action := Msg.action m |}.

Definition withReply (r : option IMessageReplyPayload) (m : Msg.t) : Msg.t :=
  {| Msg.id := Msg.id m; Msg.conversation_message_id := Msg.conversation_message_id m;
     Msg.out := Msg.out m; Msg.peer_id := Msg.peer_id m; Msg.from_id := Msg.from_id m;
     Msg.text := Msg.text m; Msg.date := Msg.date m; Msg.update_time := Msg.update_time m;
     Msg.random_id := Msg.random_id m; Msg.ref := Msg.ref m;
     Msg.ref_source := Msg.ref_source m; Msg.attachments := Msg.attachments m;
     Msg.important := Msg.important m; Msg.geo := Msg.geo m;
     Msg.payload := Msg.payload m; Msg.reply_message := r;
     Msg.fwd_messages := Msg.fwd_messages m; Msg.action := Msg.action m |}.

(** The double quote, to write JSON texts. *)
Definition dq : string := String JSON.quote "".

(** The text [{"a":1}]. *)
Definition json_a1 : string := "{" ++ dq ++ "a" ++ dq ++ ":1}".

Definition point : Geo :=
  {| geo_type := "point";
     geo_coordinates :=
       JObject [("latitude", JNumber 5575 (-2)); ("longitude", JNumber 3762 (-2))];
     geo_place := None |}.

Definition quoted : IMessageReplyPayload :=
  {| reply_id := 7; reply_conversation_message_id := 3; reply_peer_id := 123;
     reply_from_id := 456; reply_text := Some "earlier"; reply_date := 1599999000;
     reply_update_time := None;
     reply_attachments := [ {| raw_type := "photo"; raw_body := JNull |} ] |}.

(** The options of a view that comes from a webhook. *)
Definition webhook (input : PayloadInput) : MessageContextOptions :=
  {| source := WEBHOOK; options_payload := input;
     updateType := UpdateName "message_new";
     options_groupId := Some 1; options_state := JObject [] |}.

(** The options of a view that comes from long polling. *)
Definition polling (update : PollingUpdate) : MessageContextOptions :=
  {| source := POLLING; options_payload := update;
     updateType := UpdateNumber 4;
     options_groupId := Some 1; options_state := JObject [] |}.

(** The view of a completed construction. *)
Definition built (c : Completion MessageContext) (fallback : MessageContext)
  : MessageContext :=
  match c with
  | Return this => this
  | Throw _ => fallback
  end.

(** A view of [m]: what the constructor gives for a webhook payload, or
    the bare allocation if the constructor throws. *)
Definition view (m : Msg.t) : MessageContext :=
  built (new_MessageContext (webhook (Bare m)))
    (allocate (webhook (Bare m)) (polyfill (Bare m))).

(** The same view in the stub state. *)
Definition stub (m : Msg.t) : MessageContext := set_filled false (view m).

(** Collaborators that answer every request. *)
Definition answers (fetched : list Msg.t) (acknowledged : list Z) : Handler :=
  fun _ req =>
    match req return Completion (Response req) with
    | messages_getById _ => Return fetched
    | messages_getByConversationMessageId _ _ => Return fetched
    | messages_send _ => Return 42
    | messages_markAsImportant _ _ => Return acknowledged
    | messages_editChat _ _ => Return 1
    | messages_deleteChatPhoto _ => Return (JNumber 1 0)
    | messages_addChatUser _ _ => Return 1
    | messages_removeChatUser _ _ => Return 1
    | messages_pin _ _ => Return 1
    | messages_unpin _ _ => Return 1
    | upload_chatPhoto _ _ _ => Return (JObject [])
    | getRandomId => Return 777
    | Date_now => Return 1600000000123
    end.

End Sample.

(** ** The operations on the message itself

    [editMessage], [editMessageText], [deleteMessage], [restoreMessage]
    and [setActivity] each make one call of the API client. The
    parameters of [messages.edit] are an object whose properties may hold
    [undefined] ([message: this.text!]): a property is a key of the map,
    its value is [None] when it holds [undefined]. *)

Inductive MessageRequest :=
| messages_edit (params : gmap string (option json))
| messages_delete (spam : Z) (message_ids : list Z)
| messages_restore (message_id : Z)
| messages_setActivity (peer_id : Z) (type : string).

(** The one call of an operation and what the operation does with its
    completion; each of the four calls resolves to a number. *)
Record Operation (A : Type) : Type := {
  request : MessageRequest;
  resume : Completion Z -> MessageContext * Completion A
}.
Arguments request {A} o.
Arguments resume {A} o c.

Section MessageOperations.

(** [Attachment.prototype.toString] is not among the sources; it is what
    [String(attachments)] writes for each attachment. *)
Variable attachmentToString : Attachment -> string.

(** [String(array)]: the elements, each as a string, joined by commas. *)
Definition StringOfArray (attachments : list Attachment) : string :=
  String.concat "," (List.map attachmentToString attachments).

(** The parameters [editMessage] hands to [messages.edit]. A later
    property of the object literal replaces an earlier one of the same
    name. *)
Definition editParams (this : MessageContext) (params : gmap string (option json))
  : gmap string (option json) :=
  let target : gmap string (option json) :=
    if negb (id this =? 0)
    then {[ "id" := Some (jnumber (id this)) ]}
    else {[ "conversation_message_id" := Some (jnumber (conversationMessageId this)) ]} in
  ({[ "peer_id" := Some (jnumber (peerId this));
      "message_id" := Some (jnumber (id this)) ]} : gmap string (option json))
  ∪ params
  ∪ {[ "attachment" :=
         Some (JString (StringOfArray (List.filter canBeAttached (attachments this))));
       "message" := JString <$> text this;
       "keep_forward_messages" := Some (jnumber 1);
       "keep_snippets" := Some (jnumber 1) ]}
  ∪ target.

Definition editMessage (params : gmap string (option json)) (this : MessageContext)
  : Operation Z :=
  {| request := messages_edit (editParams this params);
     resume := fun completion => (this, completion) |}.

Definition editMessageText (message : string) (this : MessageContext)
  : Operation Z :=
  {| request := request (editMessage {[ "message" := Some (JString message) ]} this);
     resume := fun completion =>
       match completion with
       | Return response => (set_text (Some message) this, Return response)
       | Throw e => (this, Throw e)
       end |}.

Definition deleteMessage (ids : option (list Z)) (spam : option Z)
  (this : MessageContext) : Operation Z :=
  {| request := messages_delete (default 0 spam) (default [id this] ids);
     resume := fun completion => (this, completion) |}.

Definition restoreMessage (this : MessageContext) : Operation bool :=
  {| request := messages_restore (id this);
     resume := fun completion =>
       match completion with
       | Return isRestored => (this, Return (truthyZ isRestored))
       | Throw e => (this, Throw e)
       end |}.

Definition setActivity (this : MessageContext) : Operation bool :=
  {| request := messages_setActivity (peerId this) "typing";
     resume := fun completion =>
       match completion with
       | Return isActivited => (this, Return (truthyZ isActivited))
       | Throw e => (this, Throw e)
       end |}.

End MessageOperations.

Section ConstructorNames.
Context `{!Imports}.

(** What the constructor hands to [applyPayload]: the decoded update for
    long polling, the payload itself otherwise. *)
Definition constructorInput (options : MessageContextOptions) : PayloadInput :=
  match source options as s return payloadOf s -> PayloadInput with
  | POLLING => fun update => Bare (transformMessage update)
  | WEBHOOK => fun p => p
  end (options_payload options).

(** [$filled] as the constructor sets it. *)
Definition constructorFilled (options : MessageContextOptions) : bool :=
  match source options with
  | POLLING => false
  | WEBHOOK => true
  end.

End ConstructorNames.

(** ** More of the concrete setting *)
Module Scenario.
Import Sample.

(** Collaborators that reject every request. *)
Definition rejects (e : Error) : Handler := fun _ _ => Throw e.

(** Collaborators that reject [messages.send] alone. *)
Definition rejectsSend (e : Error) : Handler :=
  fun log req =>
    match req return Completion (Response req) with
    | messages_send _ => Throw e
    | other => answers [] [] log other
    end.

(** A message of the chat 1 that tells of the invitation of user 77. *)
Definition invitation : Msg.t :=
  {| Msg.id := 10;
     Msg.conversation_message_id := 4;
     Msg.out := 0;
     Msg.peer_id := 2000000001;
     Msg.from_id := 5;
     Msg.text := None;
     Msg.date := 1600000000;
     Msg.update_time := None;
     Msg.random_id := 0;
     Msg.ref := None;
     Msg.ref_source := None;
     Msg.attachments := [];
     Msg.important := false;
     Msg.geo := None;
     Msg.payload := None;
     Msg.reply_message := None;
     Msg.fwd_messages := None;
     Msg.action :=
       Some {| action_type := chat_invite_user; member_id := 77;
               action_text := None; action_email := None;
               action_photo := None |} |}.

(** An attachment written as its type. *)
Definition typeName (a : Attachment) : string := attachment_type a.

End Scenario.

(** * Properties *)

Section Properties.
Context `{!Imports}.

(** ** Truthiness and the JSON reader *)

Lemma truthy_Some s : truthy (Some s) = true <-> s <> "".
Proof.
  unfold truthy. destruct (String.eqb_spec s ""); cbn; split; congruence.
Qed.

Lemma truthy_false s :
  truthy s = false <-> s = None \/ s = Some "".
Proof.
  destruct s as [s|]; cbn.
  - destruct (String.eqb_spec s "") as [->|Hne]; cbn; split.
    + auto.
    + reflexivity.
    + discriminate.
    + intros [Hnone|Hsome]; congruence.
  - split; auto.
Qed.

(** The empty text is not JSON. *)
Lemma parse_empty : JSON.parse "" = None.
Proof. reflexivity. Qed.

(** The reader on a few texts: values, nesting, white space, and texts
    that are not JSON. *)
Example parse_values :
  JSON.parse " [1, -2.50e3, true, null, [[]], {}] "
  = Some (JArray [JNumber 1 0; JNumber (-250) 1; JBool true; JNull;
                  JArray [JArray []]; JObject []]).
Proof. reflexivity. Qed.

Example parse_rejects :
  List.map JSON.parse ["not json"; "01"; "[1,]"; "1 2"; "tru"; "-"; "1."; "[[1]"]
  = [None; None; None; None; None; None; None; None].
Proof. reflexivity. Qed.

(** ** What [applyPayload] assigns *)

(** Opens [applyPayload] and goes through its branches. *)
Ltac by_applyPayload this :=
  unfold applyPayload, fragment; cbn zeta;
  change (message (set_text ?t (set_payload ?p this))) with (Payload.message p);
  repeat case_match.

Lemma applyPayload_payload this input :
  payload (applyPayload this input).1 = polyfill input.
Proof.
  by_applyPayload this; reflexivity.
Qed.

Lemma applyPayload_text this input :
  text (applyPayload this input).1 =
    if truthy (Msg.text (fragment input))
    then unescapeHTML <$> Msg.text (fragment input) else None.
Proof.
  by_applyPayload this; reflexivity.
Qed.

Lemma applyPayload_attachments this input :
  kAttachments (applyPayload this input).1 =
    transformAttachments (Msg.attachments (fragment input)).
Proof.
  by_applyPayload this; reflexivity.
Qed.

Lemma applyPayload_forwards this input :
  kForwards (applyPayload this input).1 =
    List.map new_MessageForward (default [] (Msg.fwd_messages (fragment input))).
Proof.
  by_applyPayload this; reflexivity.
Qed.

Lemma applyPayload_reply this input :
  kReplyMessage (applyPayload this input).1 =
    match Msg.reply_message (fragment input) with
    | Some reply => Some (new_MessageReply reply)
    | None => kReplyMessage this
    end.
Proof.
  by_applyPayload this; reflexivity.
Qed.

Lemma applyPayload_filled this input :
  filled (applyPayload this input).1 = filled this.
Proof.
  by_applyPayload this; reflexivity.
Qed.

(** The decoding step, the last statement of [applyPayload]. *)
Lemma applyPayload_decode this input :
  let after := applyPayload this input in
  if truthy (Msg.payload (fragment input)) then
    match JSON.parse (default "" (Msg.payload (fragment input))) with
    | Some value => kMessagePayload after.1 = Some value /\ after.2 = Return tt
    | None => kMessagePayload after.1 = kMessagePayload this
              /\ after.2 = Throw SyntaxError
    end
  else kMessagePayload after.1 = kMessagePayload this /\ after.2 = Return tt.
Proof.
  by_applyPayload this; split; reflexivity.
Qed.

Lemma applyPayload_decode_Some this input s :
  Msg.payload (fragment input) = Some s -> s <> "" ->
  let after := applyPayload this input in
  match JSON.parse s with
  | Some value => kMessagePayload after.1 = Some value /\ after.2 = Return tt
  | None => kMessagePayload after.1 = kMessagePayload this
            /\ after.2 = Throw SyntaxError
  end.
Proof.
  intros Hs Hne. pose proof (applyPayload_decode this input) as Hdecode.
  cbn zeta in *. rewrite Hs in Hdecode.
  apply truthy_Some in Hne. rewrite Hne in Hdecode. exact Hdecode.
Qed.


(** ** Normalisation *)

(** C5. A payload without [client_info] is wrapped as the message of an
    envelope whose capabilities are the defaults, a payload with
    [client_info] is taken as it is; this is the payload of the view
    after [applyPayload], whatever else the call does. *)
Theorem applyPayload_client_info this input :
  payload (applyPayload this input).1 =
    match input with
    | Bare m =>
        {| Payload.message := m;
           Payload.client_info :=
             {| button_actions := [button_text];
                keyboard := true;
                inline_keyboard := false;
                carousel := false;
                lang_id := 0 |} |}
    | Enveloped p => p
    end.
Proof.
  rewrite applyPayload_payload. destruct input; reflexivity.
Qed.

(** C10. A wire text that is absent or empty leaves the view without text
    ([text] undefined, [hasText] false); a wire text that is not empty
    gives the view that text unescaped. *)
Theorem applyPayload_wire_text this input :
  let after := (applyPayload this input).1 in
  (Msg.text (fragment input) = None \/ Msg.text (fragment input) = Some "" ->
   text after = None /\ hasText after = false)
  /\ (forall s, Msg.text (fragment input) = Some s -> s <> "" ->
      text after = Some (unescapeHTML s)).
Proof.
  cbn zeta. unfold hasText. rewrite applyPayload_text. split.
  - intros Hempty. apply truthy_false in Hempty. rewrite Hempty. split; reflexivity.
  - intros s Hs Hne. rewrite Hs. apply truthy_Some in Hne. rewrite Hne. reflexivity.
Qed.

(** C1 (amended). On a view that has no message payload yet, as a new
    view has none: an absent or empty [payload] leaves [messagePayload]
    undefined; a [payload] that is valid JSON makes [messagePayload] the
    value decoded from it by [applyPayload]; a non-empty [payload] that
    is not valid JSON makes [applyPayload] throw the [SyntaxError] of
    [JSON.parse]. *)
Theorem applyPayload_messagePayload this input :
  let after := applyPayload this input in
  (Msg.payload (fragment input) = None \/ Msg.payload (fragment input) = Some "" ->
   messagePayload this = None ->
   after.2 = Return tt /\ messagePayload after.1 = None)
  /\ (forall s value, Msg.payload (fragment input) = Some s ->
      JSON.parse s = Some value ->
      after.2 = Return tt /\ messagePayload after.1 = Some value)
  /\ (forall s, Msg.payload (fragment input) = Some s -> s <> "" ->
      JSON.parse s = None ->
      after.2 = Throw SyntaxError).
Proof.
  cbn zeta. unfold messagePayload.
  assert (Hvalid : forall s value, JSON.parse s = Some value -> s <> "").
  { intros s value Hparse ->. rewrite parse_empty in Hparse. discriminate. }
  split; [|split].
  - intros Hempty Hnone. apply truthy_false in Hempty.
    pose proof (applyPayload_decode this input) as Hdecode. cbn zeta in Hdecode.
    rewrite Hempty in Hdecode. destruct Hdecode as [-> ->]. auto.
  - intros s value Hs Hparse.
    pose proof (applyPayload_decode_Some this input s Hs (Hvalid _ _ Hparse)) as Hd.
    cbn zeta in Hd. rewrite Hparse in Hd. destruct Hd; auto.
  - intros s Hs Hne Hparse.
    pose proof (applyPayload_decode_Some this input s Hs Hne) as Hd.
    cbn zeta in Hd. rewrite Hparse in Hd. apply Hd.
Qed.

(** The accessor reads what [applyPayload] stored; it decodes nothing. *)
Lemma messagePayload_cached (this : MessageContext) :
  messagePayload this = kMessagePayload this.
Proof. reflexivity. Qed.

(** A new view has the decoded payload, or no view is made. *)
Lemma new_MessageContext_messagePayload options :
  match new_MessageContext options with
  | Return this =>
      messagePayload this =
        (if truthy (Msg.payload (message this))
         then JSON.parse (default "" (Msg.payload (message this))) else None)
  | Throw e => e = SyntaxError
  end.
Proof.
  unfold new_MessageContext.
  destruct options as [[] input u g st]; cbn [source options_payload];
    match goal with
    | |- context [applyPayload ?t ?i] =>
        pose proof (applyPayload_decode t i) as Hd;
        pose proof (applyPayload_payload t i) as Hp;
        destruct (applyPayload t i) as [after c]
    end;
    cbn zeta in Hd; cbn [fst snd] in Hd, Hp; unfold fragment in Hd;
    unfold messagePayload, message;
    (destruct c as [[]|e];
     [ cbn [payload set_subTypes kMessagePayload]; rewrite Hp;
       destruct (truthy _);
       [ destruct (JSON.parse _); destruct Hd as [Hd1 Hd2];
         [ exact Hd1 | discriminate ]
       | apply Hd ]
     | destruct (truthy _);
       [ destruct (JSON.parse _); destruct Hd as [Hd1 Hd2]; congruence
       | destruct Hd; discriminate ] ]).
Qed.

(** ** The accessor [geo] *)

(** C2 (amended). On a stub view, [geo] fails with
    [PAYLOAD_IS_NOT_FULL] when the fragment has geo data, and is
    undefined when the fragment has none. *)
Theorem geo_stub (this : MessageContext) :
  filled this = false ->
  geo this =
    match Msg.geo (message this) with
    | Some _ => Throw (VKError "PAYLOAD_IS_NOT_FULL"
                         "The message payload is not fully loaded")
    | None => Return None
    end.
Proof.
  intros Hstub. unfold geo, hasGeo. rewrite Hstub.
  destruct (Msg.geo (message this)); reflexivity.
Qed.

(** A full view gives the geo data of its fragment. *)
Lemma geo_full (this : MessageContext) :
  filled this = true -> geo this = Return (Msg.geo (message this)).
Proof.
  intros Hfull. unfold geo, hasGeo. rewrite Hfull.
  destruct (Msg.geo (message this)); reflexivity.
Qed.

(** ** Aggregated attachments *)

Lemma filter_sublist {A} (P : A -> bool) (l : list A) :
  sublist (List.filter P l) l.
Proof.
  induction l as [|a l IH]; cbn.
  - constructor.
  - destruct (P a); [apply sublist_skip | apply sublist_cons]; exact IH.
Qed.

Lemma concat_map_sublist {A B} (f g : A -> list B) (l : list A) :
  (forall a, sublist (f a) (g a)) ->
  sublist (List.concat (List.map f l)) (List.concat (List.map g l)).
Proof.
  intros Hfg. induction l as [|a l IH]; cbn.
  - constructor.
  - apply sublist_app; [apply Hfg | exact IH].
Qed.

(** C4. [getAllAttachments(kind)] is the attachments of the kind of the
    view itself, then those of the reply message (none without a reply),
    then those of the forwards, each of the three in the order of its
    source: a filter of the view's attachments, of the reply's
    attachments, and of the attachments of the forwards taken in chain
    order. *)
Theorem getAllAttachments_order (this : MessageContext) (kind : string) :
  let wanted := fun a => String.eqb (attachment_type a) kind in
  let own := List.filter wanted (attachments this) in
  let replied :=
    match replyMessage this with
    | Some reply => List.filter wanted (reply_view reply)
    | None => []
    end in
  let forwarded :=
    List.concat
      (List.map (fun f => List.filter wanted (forward_attachments_of f))
         (forwards this)) in
  getAllAttachments this kind = (own ++ replied ++ forwarded)%list
  /\ sublist own (attachments this)
  /\ sublist replied (from_option reply_view [] (replyMessage this))
  /\ sublist forwarded
       (List.concat (List.map forward_attachments_of (forwards this))).
Proof.
  cbn zeta. split; [|split; [|split]].
  - unfold getAllAttachments, getAttachments, Forwards.getAttachments,
      Attachmentable.getAttachments, Attachmentable.matches.
    destruct (replyMessage this); reflexivity.
  - apply filter_sublist.
  - destruct (replyMessage this); cbn; [apply filter_sublist | constructor].
  - apply concat_map_sublist. intros f. apply filter_sublist.
Qed.

(** The lookup stays on the first level of the chain: it depends on the
    own attachments of the forwards only, not on what they forward. *)
Lemma getAttachments_first_level (fs gs : MessageForwardsCollection)
  (kind : option string) :
  List.map forward_attachments_of fs = List.map forward_attachments_of gs ->
  Forwards.getAttachments fs kind = Forwards.getAttachments gs kind.
Proof.
  unfold Forwards.getAttachments. intros Hsame.
  rewrite <- (List.map_map forward_attachments_of
                (fun v => Attachmentable.getAttachments v kind) fs).
  rewrite <- (List.map_map forward_attachments_of
                (fun v => Attachmentable.getAttachments v kind) gs).
  rewrite Hsame. reflexivity.
Qed.

(** ** The serialised projection *)

(** C9. The projection names [id], [conversationMessageId], [peerId],
    [peerType], [senderId], [senderType], [createdAt], [updatedAt] and
    [text]; then the four event fields if the message is an event and
    [replyMessage] if there is a reply; then [forwards] and
    [attachments]; then [messagePayload] if there is one, [isOutbox],
    [referralValue] and [referralSource] if there is a referral value,
    and [$match] if a match was stored: in that order, both in the list
    handed to [pickProperties] and in the keys of the result. *)
Theorem kSerializeData_order (this : MessageContext) :
  let names : list string :=
    (["id"; "conversationMessageId"; "peerId"; "peerType"; "senderId";
      "senderType"; "createdAt"; "updatedAt"; "text"]
    ++ (if isEvent this
        then ["eventType"; "eventMemberId"; "eventText"; "eventEmail"] else [])
    ++ (if hasReplyMessage this then ["replyMessage"] else [])
    ++ ["forwards"; "attachments"]
    ++ (if hasMessagePayload this then ["messagePayload"] else [])
    ++ ["isOutbox"]
    ++ (if truthy (referralValue this)
        then ["referralValue"; "referralSource"] else [])
    ++ (if bool_decide (is_Some (matched this)) then ["$match"] else []))%list in
  serializedProperties this = names
  /\ List.map fst (kSerializeData this) = names.
Proof.
  cbn zeta.
  assert (Hnames : serializedProperties this =
    (["id"; "conversationMessageId"; "peerId"; "peerType"; "senderId";
     "senderType"; "createdAt"; "updatedAt"; "text"]
    ++ (if isEvent this
        then ["eventType"; "eventMemberId"; "eventText"; "eventEmail"] else [])
    ++ (if hasReplyMessage this then ["replyMessage"] else [])
    ++ ["forwards"; "attachments"]
    ++ (if hasMessagePayload this then ["messagePayload"] else [])
    ++ ["isOutbox"]
    ++ (if truthy (referralValue this)
        then ["referralValue"; "referralSource"] else [])
    ++ (if bool_decide (is_Some (matched this)) then ["$match"] else []))%list).
  { unfold serializedProperties, beforeAttachments, afterAttachments.
    rewrite <- !app_assoc. reflexivity. }
  split; [exact Hnames|].
  unfold kSerializeData, pickProperties. rewrite List.map_map. cbn [fst].
  rewrite List.map_id. exact Hnames.
Qed.

(** The derived conditions of the projection, on the data. *)
Lemma serialize_conditions (this : MessageContext) :
  (isEvent this = true <-> is_Some (Msg.action (message this)))
  /\ (hasReplyMessage this = true <-> is_Some (kReplyMessage this))
  /\ (hasMessagePayload this = true <->
      exists s, Msg.payload (message this) = Some s /\ s <> "").
Proof.
  unfold isEvent, eventType, hasReplyMessage, replyMessage, hasMessagePayload.
  repeat split.
  - intros Hb. apply bool_decide_eq_true in Hb.
    destruct (Msg.action (message this)); [eauto | destruct Hb; discriminate].
  - intros [a ->]. apply bool_decide_eq_true. cbn. eauto.
  - apply bool_decide_eq_true.
  - apply bool_decide_eq_true.
  - destruct (Msg.payload (message this)) as [s|]; [|discriminate].
    intros Ht. exists s. split; [reflexivity | by apply truthy_Some].
  - intros (s & -> & Hne). by apply truthy_Some.
Qed.

(** ** The chat-only operations *)

Lemma assertIsChat_fails (this : MessageContext) :
  isChat this = false -> assertIsChat this = Done (this, Throw IS_NOT_CHAT).
Proof.
  intros Hchat. unfold assertIsChat, bind, getThis, throw; cbn. rewrite Hchat.
  reflexivity.
Qed.

Lemma assertIsChat_passes (this : MessageContext) :
  isChat this = true -> assertIsChat this = Done (this, Return tt).
Proof.
  intros Hchat. unfold assertIsChat, bind, getThis, ret; cbn. rewrite Hchat.
  reflexivity.
Qed.

(** What follows a failed assertion is not run. *)
Lemma assert_then_fails {A} (k : M A) (h : Handler) (this : MessageContext) :
  isChat this = false ->
  run h ((assertIsChat;;; k)%method this) = ([], (this, Throw IS_NOT_CHAT)).
Proof.
  intros Hchat. unfold run, bind. rewrite (assertIsChat_fails this Hchat).
  reflexivity.
Qed.

(** C8. On a view whose peer is not a chat, each of the seven chat-only
    operations fails with the [VKError] of code [IS_NOT_CHAT]; no request
    is issued and the view is unchanged. *)
Theorem chat_only_operations (h : Handler) (this : MessageContext) :
  isChat this = false ->
  let failure :=
    VKError "IS_NOT_CHAT" "This method is only available in chat" in
  (forall title,
     run h (renameChat title this) = ([], (this, Throw failure)))
  /\ (forall source params,
     run h (newChatPhoto source params this) = ([], (this, Throw failure)))
  /\ run h (deleteChatPhoto this) = ([], (this, Throw failure))
  /\ (forall user,
     run h (inviteUser user this) = ([], (this, Throw failure)))
  /\ (forall user,
     run h (kickUser user this) = ([], (this, Throw failure)))
  /\ run h (pinMessage this) = ([], (this, Throw failure))
  /\ run h (unpinMessage this) = ([], (this, Throw failure)).
Proof.
  intros Hchat. cbn zeta. repeat apply conj; intros;
    apply assert_then_fails; exact Hchat.
Qed.

(** On a chat the operation goes on to its remote call, with the chat id
    [peerId - CHAT_PEER]. *)
Lemma renameChat_in_chat (h : Handler) (this : MessageContext) (title : string) :
  isChat this = true ->
  (run h (renameChat title this)).1 =
    [messages_editChat (Some (peerId this - CHAT_PEER)) title].
Proof.
  intros Hchat. unfold run, renameChat, bind.
  rewrite (assertIsChat_passes this Hchat). cbn.
  unfold chatId. rewrite Hchat. cbn.
  destruct (h [] _); reflexivity.
Qed.

(** ** [markAsImportant] *)

Lemma includes_In (x : Z) (ids : list Z) : includes x ids = true <-> In x ids.
Proof.
  unfold includes. rewrite existsb_exists. split.
  - intros (y & Hin & Heq). apply Z.eqb_eq in Heq. subst. exact Hin.
  - intros Hin. exists x. split; [exact Hin | apply Z.eqb_refl].
Qed.

Lemma isImportant_set (b : bool) (this : MessageContext) :
  isImportant (set_message_important b this) = b.
Proof. reflexivity. Qed.

(** C7. When the call of [markAsImportant] succeeds with the list
    [acknowledged]: if the id of the view is in the list, the view
    differs from before by its important flag only, which is
    [Boolean(important)]; if it is not, the view is unchanged. The method
    returns the list. *)
Theorem markAsImportant_acknowledged (h : Handler) (this : MessageContext)
  (ids : option (list Z)) (important : option Z) (acknowledged : list Z) :
  let sent := default [id this] ids in
  let flag := default (NumberOfBool (negb (isImportant this))) important in
  h [] (messages_markAsImportant flag sent) = Return acknowledged ->
  exists after,
    run h (markAsImportant ids important this) =
      ([messages_markAsImportant flag sent], (after, Return acknowledged))
    /\ (In (id this) acknowledged ->
        after = set_message_important (truthyZ flag) this
        /\ isImportant after = truthyZ flag)
    /\ (~ In (id this) acknowledged -> after = this).
Proof.
  cbn zeta. intros Hack.
  exists (if includes (id this) acknowledged
          then set_message_important (truthyZ
                 (default (NumberOfBool (negb (isImportant this))) important)) this
          else this).
  split; [|split].
  - unfold run, markAsImportant, bind, getThis, await, modify, ret.
    cbn [bindAsync exec fst snd app]. rewrite Hack. cbn [bindAsync exec fst snd].
    destruct (includes (id this) acknowledged); reflexivity.
  - intros Hin. apply includes_In in Hin. rewrite Hin. split; reflexivity.
  - intros Hout. destruct (includes (id this) acknowledged) eqn:Hinc; [|reflexivity].
    apply includes_In in Hinc. contradiction.
Qed.

(** ** [loadMessagePayload] *)

Lemma loadMessagePayload_noop (h : Handler) (this : MessageContext) (force : bool) :
  filled this && negb force = true ->
  run h (loadMessagePayload force this) = ([], (this, Return tt)).
Proof.
  intros Hfull. unfold run, loadMessagePayload, bind, getThis; cbn.
  rewrite Hfull. reflexivity.
Qed.

Lemma loadMessagePayload_request (h : Handler) (this : MessageContext) (force : bool) :
  filled this && negb force = false ->
  (run h (loadMessagePayload force this)).1 = [fetchRequest this].
Proof.
  intros Hgo. unfold run, loadMessagePayload, fetchRequest, bind, getThis; cbn.
  rewrite Hgo. destruct (id this =? 0); cbn.
  - destruct (h [] _) as [[|m items]|e]; cbn; try reflexivity.
    destruct (applyPayload this (Bare m)) as [after []]; reflexivity.
  - destruct (h [] _) as [[|m items]|e]; cbn; try reflexivity.
    destruct (applyPayload this (Bare m)) as [after []]; reflexivity.
Qed.

Lemma loadMessagePayload_fetched (h : Handler) (this : MessageContext) (force : bool)
  (fetched : Msg.t) (rest : list Msg.t) :
  filled this && negb force = false ->
  (id this <> 0 -> h [] (messages_getById (id this)) = Return (fetched :: rest)) ->
  (id this = 0 ->
   h [] (messages_getByConversationMessageId (peerId this) (conversationMessageId this))
     = Return (fetched :: rest)) ->
  run h (loadMessagePayload force this) =
    ([fetchRequest this],
     match (applyPayload this (Bare fetched)).2 with
     | Return _ => (set_filled true (applyPayload this (Bare fetched)).1, Return tt)
     | Throw e => ((applyPayload this (Bare fetched)).1, Throw e)
     end).
Proof.
  intros Hgo Hid Hcm. unfold run, loadMessagePayload, fetchRequest, bind, getThis; cbn.
  rewrite Hgo. destruct (Z.eqb_spec (id this) 0) as [Hz|Hnz]; cbn.
  - rewrite (Hcm Hz). cbn.
    destruct (applyPayload this (Bare fetched)) as [after [[]|e]]; reflexivity.
  - rewrite (Hid Hnz). cbn.
    destruct (applyPayload this (Bare fetched)) as [after [[]|e]]; reflexivity.
Qed.

(** A fetched fragment whose payload string decodes, if it has one, is
    applied without an exception. *)
Lemma applyPayload_returns this input :
  (forall s, Msg.payload (fragment input) = Some s -> s <> "" ->
             is_Some (JSON.parse s)) ->
  (applyPayload this input).2 = Return tt.
Proof.
  intros Hvalid. pose proof (applyPayload_decode this input) as Hd. cbn zeta in Hd.
  destruct (Msg.payload (fragment input)) as [s|] eqn:Hs; [|apply Hd].
  destruct (truthy (Some s)) eqn:Ht; [|apply Hd].
  apply truthy_Some in Ht. destruct (Hvalid s eq_refl Ht) as [v Hv].
  pose proof (applyPayload_decode_Some this input s Hs Ht) as Hs'.
  cbn zeta in Hs'. rewrite Hv in Hs'. apply Hs'.
Qed.

(** C6 (amended). [loadMessagePayload] does nothing on a full view when
    [force] is not set. Otherwise it issues one request, [messages.getById]
    with the id when the id is not 0 and
    [messages.getByConversationMessageId] with the peer id and the
    conversation message id when it is 0; when that returns a fragment
    (whose payload string, if any, decodes), the fragment becomes the
    message of the view, the attachments and the forwards are rebuilt
    from it, the reply message is rebuilt from it when it has one, and
    the view is full. *)
Theorem loadMessagePayload_promotes (h : Handler) (this : MessageContext)
  (force : bool) :
  (filled this = true -> force = false ->
   run h (loadMessagePayload force this) = ([], (this, Return tt)))
  /\ (filled this && negb force = false ->
      (run h (loadMessagePayload force this)).1 =
        [if id this =? 0
         then messages_getByConversationMessageId
                (peerId this) (conversationMessageId this)
         else messages_getById (id this)])
  /\ (forall fetched rest,
      filled this && negb force = false ->
      (id this <> 0 ->
       h [] (messages_getById (id this)) = Return (fetched :: rest)) ->
      (id this = 0 ->
       h [] (messages_getByConversationMessageId
               (peerId this) (conversationMessageId this))
         = Return (fetched :: rest)) ->
      (forall s, Msg.payload fetched = Some s -> s <> "" ->
                 is_Some (JSON.parse s)) ->
      exists after,
        (run h (loadMessagePayload force this)).2 = (after, Return tt)
        /\ message after = fetched
        /\ attachments after = transformAttachments (Msg.attachments fetched)
        /\ forwards after =
             List.map new_MessageForward (default [] (Msg.fwd_messages fetched))
        /\ (forall reply, Msg.reply_message fetched = Some reply ->
            replyMessage after = Some (new_MessageReply reply))
        /\ filled after = true).
Proof.
  split; [|split].
  - intros Hfull Hforce. apply loadMessagePayload_noop.
    rewrite Hfull, Hforce. reflexivity.
  - apply loadMessagePayload_request.
  - intros fetched rest Hgo Hid Hcm Hvalid.
    rewrite (loadMessagePayload_fetched h this force fetched rest Hgo Hid Hcm).
    rewrite (applyPayload_returns this (Bare fetched) Hvalid).
    eexists. split; [reflexivity|]. cbn [fst snd].
    unfold message, attachments, forwards, replyMessage.
    cbn [payload kAttachments kForwards kReplyMessage filled set_filled].
    rewrite applyPayload_payload, applyPayload_attachments,
      applyPayload_forwards, applyPayload_reply.
    repeat split.
    intros reply Hreply. cbn [fragment polyfill Payload.message].
    rewrite Hreply. reflexivity.
Qed.

(** ** [send] *)

Lemma sentOptions_text_lookup this s randomId :
  let options := sentOptions this (Text s) None randomId in
  options !! "message" = Some (JString s)
  /\ options !! "peer_id" = Some (jnumber (peerId this))
  /\ options !! "random_id" = Some (jnumber randomId)
  /\ options !! "text" = None.
Proof.
  cbn zeta. unfold sentOptions, contentOptions. repeat split; vm_compute; reflexivity.
Qed.

(** What [send(text)] does when the collaborators answer: it asks for a
    random id, calls [messages.send] with that id and the peer of the
    view, reads the clock, and returns a new stub view that is outbound
    and inherits the peer and the sender. The text of the new view is
    [options.text]; the text that was sent is [options.message], so the
    new view has no text. *)
Lemma send_text (h : Handler) (this : MessageContext) (s : string)
  (randomId sentId now : Z) :
  let options := sentOptions this (Text s) None randomId in
  h [] getRandomId = Return randomId ->
  h [getRandomId] (messages_send options) = Return sentId ->
  h [getRandomId; messages_send options] Date_now = Return now ->
  exists sent,
    run h (send (Text s) None this) =
      ([getRandomId; messages_send options; Date_now], (this, Return sent))
    /\ id sent = sentId
    /\ Msg.out (message sent) = 1
    /\ Msg.random_id (message sent) = randomId
    /\ peerId sent = peerId this
    /\ senderId sent = senderId this
    /\ filled sent = false
    /\ text sent = None.
Proof.
  cbn zeta. intros Hrandom Hsend Hnow.
  unfold run, send, bind, await, getThis, complete, ret.
  cbn [bindAsync exec fst snd app]. rewrite Hrandom. cbn [bindAsync exec fst snd app].
  fold (sentOptions this (Text s) None randomId). rewrite Hsend.
  cbn [bindAsync exec fst snd app]. rewrite Hnow. cbn [bindAsync exec fst snd app].
  destruct (sentOptions_text_lookup this s randomId) as (_ & _ & _ & Htext).
  unfold optionsText. cbn zeta in Htext. rewrite Htext.
  eexists. split; [reflexivity|]. repeat split.
Qed.

End Properties.

(** * Further properties of the class *)

Section MoreProperties.
Context `{!Imports}.

(** Opens [applyPayload] on a view given by its fields. *)
Ltac open_applyPayload :=
  unfold applyPayload; cbn zeta;
  repeat match goal with
         | |- context [message (set_text ?t (set_payload ?p ?c))] =>
             change (message (set_text t (set_payload p c))) with (Payload.message p)
         end;
  repeat case_match.

(** ** [applyPayload] and the constructor *)

(** X1. [applyPayload] assigns the payload, the text and the embedded
    views; it never touches [$filled], [$match], the subtypes, the
    group id or the state of the view, whether it returns or throws. *)
Theorem applyPayload_frame this input :
  let after := (applyPayload this input).1 in
  filled after = filled this
  /\ matched after = matched this
  /\ subTypes after = subTypes this
  /\ groupId after = groupId this
  /\ state after = state this.
Proof.
  cbn zeta. open_applyPayload; repeat split; reflexivity.
Qed.

(** The fields [applyPayload] does not assign. *)
Lemma applyPayload_untouched this input :
  matched (applyPayload this input).1 = matched this
  /\ groupId (applyPayload this input).1 = groupId this
  /\ state (applyPayload this input).1 = state this.
Proof.
  open_applyPayload; repeat split; reflexivity.
Qed.

(** X2. Applying the same payload a second time changes nothing: the
    view and the completion are those of the first application. *)
Theorem applyPayload_idempotent this input :
  applyPayload (applyPayload this input).1 input = applyPayload this input.
Proof.
  destruct this as [p t f fw r a mp mt st g s].
  unfold applyPayload; cbn -[JSON.parse polyfill truthy].
  destruct (truthy (Msg.payload _)) eqn:Hpayload;
    [destruct (JSON.parse _) eqn:Hparse|];
    destruct (Msg.reply_message _) eqn:Hreply;
    cbn -[JSON.parse polyfill truthy];
    rewrite ?Hpayload, ?Hparse, ?Hreply; reflexivity.
Qed.

(** The constructor, in one piece. *)
Lemma new_MessageContext_unfold options :
  new_MessageContext options =
    let input := constructorInput options in
    let applied :=
      applyPayload
        (set_filled (constructorFilled options) (allocate options (polyfill input)))
        input in
    match applied.2 with
    | Throw e => Throw e
    | Return _ =>
        Return (set_subTypes
                  [match eventType applied.1 with
                   | Some e => UpdateName (eventTypeName e)
                   | None =>
                       match subTypesEnum (updateType options) with
                       | Some name => UpdateName name
                       | None => updateType options
                       end
                   end] applied.1)
    end.
Proof.
  unfold new_MessageContext, constructorInput, constructorFilled.
  destruct options as [[] input u g st]; cbn [source options_payload];
    cbn zeta; destruct (applyPayload _ _) as [after []]; reflexivity.
Qed.

(** X3. A view made from a long-poll update is a stub, a view made from
    any other source is full; a new view has no match result, and the
    group id and the state it was given. *)
Theorem new_MessageContext_lifecycle options this :
  new_MessageContext options = Return this ->
  filled this = match source options with POLLING => false | WEBHOOK => true end
  /\ matched this = None
  /\ groupId this = options_groupId options
  /\ state this = options_state options.
Proof.
  rewrite new_MessageContext_unfold. cbn zeta.
  match goal with
  | |- context [applyPayload ?t ?i] =>
      pose proof (applyPayload_untouched t i) as (Hm & Hg & Hs);
      pose proof (applyPayload_filled t i) as Hf;
      destruct (applyPayload t i) as [after c]
  end.
  cbn [fst snd] in *.
  destruct c as [[]|e]; [|discriminate].
  intros [= <-]. cbn [filled matched groupId state set_subTypes].
  rewrite Hf, Hm, Hg, Hs. repeat split.
Qed.

(** X4. The embedded views of a new view are those of its fragment: the
    attachments and the forwards are built from the fragment, there is a
    reply message exactly when the fragment has one, the text is the
    unescaped wire text, and the message payload is the decoded payload
    string. *)
Theorem new_MessageContext_consistent options this :
  new_MessageContext options = Return this ->
  payload this = polyfill (constructorInput options)
  /\ text this =
       (if truthy (Msg.text (message this))
        then unescapeHTML <$> Msg.text (message this) else None)
  /\ attachments this = transformAttachments (Msg.attachments (message this))
  /\ replyMessage this = new_MessageReply <$> Msg.reply_message (message this)
  /\ forwards this =
       List.map new_MessageForward (default [] (Msg.fwd_messages (message this)))
  /\ messagePayload this =
       (if truthy (Msg.payload (message this))
        then JSON.parse (default "" (Msg.payload (message this))) else None).
Proof.
  intros Hnew.
  pose proof (new_MessageContext_messagePayload options) as Hpayload.
  rewrite Hnew in Hpayload.
  rewrite new_MessageContext_unfold in Hnew. cbn zeta in Hnew.
  match type of Hnew with
  | context [applyPayload ?t ?i] =>
      pose proof (applyPayload_payload t i) as Hp;
      pose proof (applyPayload_text t i) as Ht;
      pose proof (applyPayload_attachments t i) as Ha;
      pose proof (applyPayload_reply t i) as Hr;
      pose proof (applyPayload_forwards t i) as Hf;
      destruct (applyPayload t i) as [after c]
  end.
  cbn [fst snd] in *. destruct c as [[]|e]; [|discriminate].
  injection Hnew as <-.
  unfold messagePayload, message in Hpayload.
  cbn [payload kMessagePayload set_subTypes] in Hpayload.
  unfold message, attachments, replyMessage, forwards, messagePayload, fragment in *.
  cbn [payload text kAttachments kReplyMessage kForwards kMessagePayload
       set_subTypes].
  rewrite Hp in *.
  split; [reflexivity|]. split; [exact Ht|]. split; [exact Ha|].
  split; [|split; [exact Hf | exact Hpayload]].
  rewrite Hr. destruct (Msg.reply_message _); reflexivity.
Qed.


(** ** [loadMessagePayload] *)

(** The run of a load that proceeds, by the completion of its request. *)
Lemma loadMessagePayload_run (h : Handler) (this : MessageContext) (force : bool) :
  filled this && negb force = false ->
  exists completion : Completion (list Msg.t),
    run h (loadMessagePayload force this) =
      ([fetchRequest this],
       match completion with
       | Throw e => (this, Throw e)
       | Return [] => (this, Throw TypeError)
       | Return (fetched :: _) =>
           match (applyPayload this (Bare fetched)).2 with
           | Return _ => (set_filled true (applyPayload this (Bare fetched)).1, Return tt)
           | Throw e => ((applyPayload this (Bare fetched)).1, Throw e)
           end
       end)
    /\ (id this <> 0 -> h [] (messages_getById (id this)) = completion)
    /\ (id this = 0 ->
        h [] (messages_getByConversationMessageId
                (peerId this) (conversationMessageId this)) = completion).
Proof.
  intros Hgo. unfold run, loadMessagePayload, fetchRequest, bind, getThis; cbn.
  rewrite Hgo. destruct (Z.eqb_spec (id this) 0) as [Hz|Hnz]; cbn.
  - exists (h [] (messages_getByConversationMessageId
                    (peerId this) (conversationMessageId this))).
    split; [|split; [contradiction | reflexivity]].
    destruct (h [] _) as [[|m items]|e]; cbn; try reflexivity.
    destruct (applyPayload this (Bare m)) as [after [[]|e]]; reflexivity.
  - exists (h [] (messages_getById (id this))).
    split; [|split; [reflexivity | contradiction]].
    destruct (h [] _) as [[|m items]|e]; cbn; try reflexivity.
    destruct (applyPayload this (Bare m)) as [after [[]|e]]; reflexivity.
Qed.

(** X6. When the fetch resolves with no fragment at all, the load fails
    with a [TypeError] and leaves the view as it was: it is not marked
    full and nothing of it is replaced. One request was issued. *)
Theorem loadMessagePayload_empty (h : Handler) (this : MessageContext)
  (force : bool) :
  filled this && negb force = false ->
  (id this <> 0 -> h [] (messages_getById (id this)) = Return []) ->
  (id this = 0 ->
   h [] (messages_getByConversationMessageId
           (peerId this) (conversationMessageId this)) = Return []) ->
  run h (loadMessagePayload force this) =
    ([if id this =? 0
      then messages_getByConversationMessageId
             (peerId this) (conversationMessageId this)
      else messages_getById (id this)],
     (this, Throw TypeError)).
Proof.
  intros Hgo Hid Hcm.
  destruct (loadMessagePayload_run h this force Hgo) as (c & -> & Hc1 & Hc2).
  fold (fetchRequest this).
  destruct (Z.eq_dec (id this) 0) as [Hz|Hnz].
  - rewrite <- (Hc2 Hz), (Hcm Hz). reflexivity.
  - rewrite <- (Hc1 Hnz), (Hid Hnz). reflexivity.
Qed.

(** X7. When the fetch is rejected, the load is rejected with the same
    error, after that one request, and the view is as it was. *)
Theorem loadMessagePayload_rejected (h : Handler) (this : MessageContext)
  (force : bool) (e : Error) :
  filled this && negb force = false ->
  (id this <> 0 -> h [] (messages_getById (id this)) = Throw e) ->
  (id this = 0 ->
   h [] (messages_getByConversationMessageId
           (peerId this) (conversationMessageId this)) = Throw e) ->
  run h (loadMessagePayload force this) =
    ([if id this =? 0
      then messages_getByConversationMessageId
             (peerId this) (conversationMessageId this)
      else messages_getById (id this)],
     (this, Throw e)).
Proof.
  intros Hgo Hid Hcm.
  destruct (loadMessagePayload_run h this force Hgo) as (c & -> & Hc1 & Hc2).
  fold (fetchRequest this).
  destruct (Z.eq_dec (id this) 0) as [Hz|Hnz].
  - rewrite <- (Hc2 Hz), (Hcm Hz). reflexivity.
  - rewrite <- (Hc1 Hnz), (Hid Hnz). reflexivity.
Qed.

(** X8. A load that returns normally leaves the view full, whatever the
    collaborators answered; a later load without [force] then issues no
    request and changes nothing. *)
Theorem loadMessagePayload_then_noop (h h' : Handler) (this after : MessageContext)
  (force : bool) (log : list Request) :
  run h (loadMessagePayload force this) = (log, (after, Return tt)) ->
  filled after = true
  /\ run h' (loadMessagePayload false after) = ([], (after, Return tt)).
Proof.
  intros Hrun.
  assert (Hfull : filled after = true).
  { destruct (filled this && negb force) eqn:Hgo.
    - rewrite (loadMessagePayload_noop h this force Hgo) in Hrun.
      injection Hrun as _ <-. apply andb_true_iff in Hgo. apply Hgo.
    - destruct (loadMessagePayload_run h this force Hgo) as (c & Hc & _).
      rewrite Hc in Hrun. destruct c as [[|fetched rest]|e]; try discriminate.
      destruct (applyPayload this (Bare fetched)) as [applied [[]|e]];
        cbn [fst snd] in Hrun; [|discriminate].
      injection Hrun as _ <-. reflexivity. }
  split; [exact Hfull|].
  apply loadMessagePayload_noop. rewrite Hfull. reflexivity.
Qed.

(** ** [markAsImportant] *)

(** X9. Called without arguments, [markAsImportant] asks for the
    opposite of the current flag, for the id of the view alone; when the
    server acknowledges that id the flag of the view is flipped, and the
    id, the peer, the sender and the text of the view are as before. *)
Theorem markAsImportant_toggles (h : Handler) (this : MessageContext)
  (acknowledged : list Z) :
  h [] (messages_markAsImportant (if isImportant this then 0 else 1) [id this])
    = Return acknowledged ->
  In (id this) acknowledged ->
  exists after,
    run h (markAsImportant None None this) =
      ([messages_markAsImportant (if isImportant this then 0 else 1) [id this]],
       (after, Return acknowledged))
    /\ isImportant after = negb (isImportant this)
    /\ id after = id this
    /\ peerId after = peerId this
    /\ senderId after = senderId this
    /\ text after = text this
    /\ filled after = filled this.
Proof.
  intros Hack Hin. apply includes_In in Hin.
  unfold run, markAsImportant, bind, getThis, await, modify, ret.
  cbn [bindAsync exec fst snd app default from_option].
  assert (Hflag : NumberOfBool (negb (isImportant this))
                  = if isImportant this then 0 else 1)
    by (destruct (isImportant this); reflexivity).
  rewrite Hflag, Hack. cbn [bindAsync exec fst snd]. rewrite Hin.
  eexists. split; [reflexivity|].
  destruct (isImportant this) eqn:Himp; repeat split.
Qed.

(** X10. When the call is rejected, [markAsImportant] is rejected with
    the same error and the view, its flag included, is as it was. *)
Theorem markAsImportant_rejected (h : Handler) (this : MessageContext)
  (ids : option (list Z)) (important : option Z) (e : Error) :
  h [] (messages_markAsImportant
          (default (NumberOfBool (negb (isImportant this))) important)
          (default [id this] ids)) = Throw e ->
  run h (markAsImportant ids important this) =
    ([messages_markAsImportant
        (default (NumberOfBool (negb (isImportant this))) important)
        (default [id this] ids)],
     (this, Throw e)).
Proof.
  intros Hrejected.
  unfold run, markAsImportant, bind, getThis, await, modify, ret.
  cbn [bindAsync exec fst snd app]. rewrite Hrejected. reflexivity.
Qed.

(** ** [send], [reply], [sendSticker] *)


(** X11. [send] never changes the view it is called on, whatever the
    content, the parameters and the answers of the collaborators. *)
Theorem send_keeps_this (h : Handler) (this : MessageContext) (content : Content)
  (params : option (gmap string json)) :
  (run h (send content params this)).2.1 = this.
Proof.
  unfold run, send, bind, await, getThis, complete, ret.
  cbn [bindAsync exec fst snd app].
  destruct (h [] getRandomId) as [randomId|e]; cbn [bindAsync exec fst snd app];
    [|reflexivity].
  destruct (h [getRandomId] (messages_send _)) as [sentId|e];
    cbn [bindAsync exec fst snd app]; [|reflexivity].
  destruct (h _ Date_now) as [now|e]; cbn [bindAsync exec fst snd app];
    [|reflexivity].
  destruct (new_MessageContext _) as [sent|e]; reflexivity.
Qed.


(** X13. When [messages.send] is rejected, [send] is rejected with the
    same error: no view is made and the clock is not read. *)
Theorem send_rejected (h : Handler) (this : MessageContext) (content : Content)
  (params : option (gmap string json)) (randomId : Z) (e : Error) :
  let options := sentOptions this content params randomId in
  h [] getRandomId = Return randomId ->
  h [getRandomId] (messages_send options) = Throw e ->
  run h (send content params this) =
    ([getRandomId; messages_send options], (this, Throw e)).
Proof.
  cbn zeta. intros Hrandom Hsend.
  unfold run, send, bind, await, getThis, complete, ret.
  cbn [bindAsync exec fst snd app]. rewrite Hrandom. cbn [bindAsync exec fst snd app].
  fold (sentOptions this content params randomId). rewrite Hsend. reflexivity.
Qed.

(** X14. What the caller passes wins over what [send] fills in: a
    property of the content is sent as it is, also [peer_id] and
    [random_id]; the peer of the view and the generated random id are
    sent only when the content has no such property. With a text, the
    text is the [message] unless the parameters have a [message] of
    their own. *)
Theorem send_options_precedence (this : MessageContext) (content : Content)
  (params : option (gmap string json)) (randomId : Z) :
  let own := contentOptions content params in
  let options := sentOptions this content params randomId in
  (forall key value, own !! key = Some value -> options !! key = Some value)
  /\ (own !! "peer_id" = None ->
      options !! "peer_id" = Some (jnumber (peerId this)))
  /\ (own !! "random_id" = None ->
      options !! "random_id" = Some (jnumber randomId))
  /\ (forall s, content = Text s ->
      own !! "message" =
        match params ≫= (.!! "message") with
        | Some value => Some value
        | None => Some (JString s)
        end).
Proof.
  cbn zeta. unfold sentOptions. split; [|split; [|split]].
  - intros key value Hown. apply lookup_union_Some_l. exact Hown.
  - intros Hnone. rewrite lookup_union_r by exact Hnone. reflexivity.
  - intros Hnone. rewrite lookup_union_r by exact Hnone. reflexivity.
  - intros s ->. unfold contentOptions. destruct params as [ps|]; cbn.
    + destruct (ps !! "message") as [v|] eqn:Hv.
      * apply lookup_union_Some_l. exact Hv.
      * rewrite lookup_union_r by exact Hv. apply lookup_singleton_eq.
    + rewrite lookup_union_r by apply lookup_empty. apply lookup_singleton_eq.
Qed.

(** X15. [reply] is [send] with the property [reply_to] set to the id of
    the view, unless the content has a [reply_to] of its own; the other
    properties of the content are sent as they are, and the view is not
    changed. *)
Theorem reply_request (h : Handler) (this : MessageContext) (content : Content)
  (params : option (gmap string json)) (randomId : Z) :
  h [] getRandomId = Return randomId ->
  exists options,
    take 2 (run h (reply content params this)).1 = [getRandomId; messages_send options]
    /\ (contentOptions content params !! "reply_to" = None ->
        options !! "reply_to" = Some (jnumber (id this)))
    /\ (forall key value, contentOptions content params !! key = Some value ->
        options !! key = Some value)
    /\ (run h (reply content params this)).2.1 = this.
Proof.
  intros Hrandom.
  exists (sentOptions this
            (Options (contentOptions content params
                      ∪ {[ "reply_to" := jnumber (id this) ]})) None randomId).
  split; [|split; [|split]].
  - unfold run, reply, send, bind, await, getThis, complete, ret.
    cbn [bindAsync exec fst snd app]. rewrite Hrandom.
    cbn [bindAsync exec fst snd app].
    fold (sentOptions this
            (Options (contentOptions content params
                      ∪ {[ "reply_to" := jnumber (id this) ]})) None randomId).
    destruct (h [getRandomId] (messages_send _)) as [sentId|e];
      cbn [bindAsync exec fst snd app]; [|reflexivity].
    destruct (h _ Date_now) as [now|e]; cbn [bindAsync exec fst snd app];
      [|reflexivity].
    destruct (new_MessageContext _) as [sent|e]; reflexivity.
  - intros Hnone. unfold sentOptions. cbn [contentOptions].
    apply lookup_union_Some_l. rewrite lookup_union_r by exact Hnone.
    apply lookup_singleton_eq.
  - intros key value Hown. unfold sentOptions. cbn [contentOptions].
    apply lookup_union_Some_l. apply lookup_union_Some_l. exact Hown.
  - unfold run, reply, send, bind, await, getThis, complete, ret.
    cbn [bindAsync exec fst snd app]. rewrite Hrandom.
    cbn [bindAsync exec fst snd app].
    destruct (h [getRandomId] (messages_send _)) as [sentId|e];
      cbn [bindAsync exec fst snd app]; [|reflexivity].
    destruct (h _ Date_now) as [now|e]; cbn [bindAsync exec fst snd app];
      [|reflexivity].
    destruct (new_MessageContext _) as [sent|e]; reflexivity.
Qed.

(** X16. [sendSticker] sends the sticker id with the peer of the view
    and the generated random id, and nothing else: there is no message
    text in the request. *)
Theorem sendSticker_request (h : Handler) (this : MessageContext)
  (sticker randomId : Z) :
  h [] getRandomId = Return randomId ->
  exists options,
    take 2 (run h (sendSticker sticker this)).1 = [getRandomId; messages_send options]
    /\ options !! "sticker_id" = Some (jnumber sticker)
    /\ options !! "peer_id" = Some (jnumber (peerId this))
    /\ options !! "random_id" = Some (jnumber randomId)
    /\ dom options = {[ "sticker_id"; "peer_id"; "random_id" ]}.
Proof.
  intros Hrandom.
  exists (sentOptions this (Options {[ "sticker_id" := jnumber sticker ]}) None randomId).
  split; [|split; [|split; [|split]]]; try (vm_compute; reflexivity).
  - unfold run, sendSticker, send, bind, await, getThis, complete, ret.
    cbn [bindAsync exec fst snd app]. rewrite Hrandom.
    cbn [bindAsync exec fst snd app].
    fold (sentOptions this (Options {[ "sticker_id" := jnumber sticker ]}) None randomId).
    destruct (h [getRandomId] (messages_send _)) as [sentId|e];
      cbn [bindAsync exec fst snd app]; [|reflexivity].
    destruct (h _ Date_now) as [now|e]; cbn [bindAsync exec fst snd app];
      [|reflexivity].
    destruct (new_MessageContext _) as [sent|e]; reflexivity.
Qed.

(** ** The chat-only operations on a chat *)

Lemma assert_then_goes_on {A} (k : M A) (h : Handler) (this : MessageContext) :
  isChat this = true ->
  run h ((assertIsChat;;; k)%method this) = run h (k this).
Proof.
  intros Hchat. unfold run, bind. rewrite (assertIsChat_passes this Hchat).
  reflexivity.
Qed.

(** X17. On a chat, [renameChat] makes one call, [messages.editChat]
    with the chat id [peerId - CHAT_PEER] and the title; it returns
    [Boolean] of the answer, a rejection is passed on, and the view is
    not changed. *)
Theorem renameChat_on_chat (h : Handler) (this : MessageContext) (title : string) :
  isChat this = true ->
  let call := messages_editChat (Some (peerId this - CHAT_PEER)) title in
  run h (renameChat title this) =
    ([call],
     (this,
      match h [] call with
      | Return isRenamed => Return (negb (isRenamed =? 0))
      | Throw e => Throw e
      end)).
Proof.
  intros Hchat. cbn zeta. unfold renameChat.
  rewrite (assert_then_goes_on _ h this Hchat).
  unfold run, bind, getThis, await, ret.
  cbn [bindAsync exec fst snd app]. unfold chatId. rewrite Hchat. cbn [negb].
  destruct (h [] _); reflexivity.
Qed.

(** X18. On a chat, [inviteUser] and [kickUser] act on the user they are
    given; without one they act on the member of the chat event of the
    message, and on no user at all ([undefined]) when the message is not
    an event. The chat id is [peerId - CHAT_PEER]. *)
Theorem invite_kick_member (h : Handler) (this : MessageContext) (user : option Z) :
  isChat this = true ->
  let chat := Some (peerId this - CHAT_PEER) in
  let member :=
    match user with
    | Some given => Some given
    | None => member_id <$> Msg.action (message this)
    end in
  (run h (inviteUser user this)).1 = [messages_addChatUser chat member]
  /\ (run h (kickUser user this)).1 = [messages_removeChatUser chat member].
Proof.
  intros Hchat. cbn zeta. split.
  - unfold inviteUser. unfold bind at 1. cbn [getThis bindAsync fst snd].
    rewrite (assert_then_goes_on _ h this Hchat).
    unfold run, bind, getThis, await, ret.
    cbn [bindAsync exec fst snd app]. unfold chatId, eventMemberId.
    rewrite Hchat. cbn [negb].
    destruct user; cbn [from_option]; destruct (h [] _); reflexivity.
  - unfold kickUser. unfold bind at 1. cbn [getThis bindAsync fst snd].
    rewrite (assert_then_goes_on _ h this Hchat).
    unfold run, bind, getThis, await, ret.
    cbn [bindAsync exec fst snd app]. unfold chatId, eventMemberId.
    rewrite Hchat. cbn [negb].
    destruct user; cbn [from_option]; destruct (h [] _); reflexivity.
Qed.

(** X19. On a chat, [pinMessage] and [unpinMessage] name the message by
    the peer id and the message id of the view, not by the chat id, and
    leave the view unchanged. *)
Theorem pin_unpin_on_chat (h : Handler) (this : MessageContext) :
  isChat this = true ->
  (run h (pinMessage this)).1 = [messages_pin (peerId this) (id this)]
  /\ (run h (pinMessage this)).2.1 = this
  /\ (run h (unpinMessage this)).1 = [messages_unpin (peerId this) (id this)]
  /\ (run h (unpinMessage this)).2.1 = this.
Proof.
  intros Hchat. unfold pinMessage, unpinMessage.
  rewrite !(assert_then_goes_on _ h this Hchat).
  unfold run, bind, getThis, await, ret.
  cbn [bindAsync exec fst snd app].
  destruct (h [] (messages_pin _ _)), (h [] (messages_unpin _ _)); repeat split.
Qed.

(** X20. On a chat, [deleteChatPhoto] returns [true] whenever its call
    resolves, whatever the value it resolves with. *)
Theorem deleteChatPhoto_on_chat (h : Handler) (this : MessageContext)
  (answer : json) :
  isChat this = true ->
  h [] (messages_deleteChatPhoto (Some (peerId this - CHAT_PEER))) = Return answer ->
  run h (deleteChatPhoto this) =
    ([messages_deleteChatPhoto (Some (peerId this - CHAT_PEER))], (this, Return true)).
Proof.
  intros Hchat Hanswer. unfold deleteChatPhoto.
  rewrite (assert_then_goes_on _ h this Hchat).
  unfold run, bind, getThis, await, ret.
  cbn [bindAsync exec fst snd app]. unfold chatId. rewrite Hchat. cbn [negb].
  rewrite Hanswer. reflexivity.
Qed.

(** ** The serialised projection and the aggregated attachments *)

(** X21. The projection never names a field twice, and it has at least
    twelve and at most twenty-one fields. *)
Theorem kSerializeData_keys (this : MessageContext) :
  NoDup (List.map fst (kSerializeData this))
  /\ (12 <= length (kSerializeData this) <= 21)%nat.
Proof.
  unfold kSerializeData, pickProperties.
  rewrite List.map_map, List.length_map. cbn [fst]. rewrite List.map_id.
  unfold serializedProperties, beforeAttachments, afterAttachments.
  destruct (isEvent this), (hasReplyMessage this), (hasMessagePayload this),
    (truthy (referralValue this)), (bool_decide (is_Some (matched this)));
    (split; [apply (bool_decide_unpack _); vm_compute; exact I
            | cbn [app length]; lia]).
Qed.

Lemma existsb_filter {A} (P : A -> bool) (l : list A) :
  existsb P l = true <-> List.filter P l <> [].
Proof.
  induction l as [|a l IH]; cbn.
  - split; [discriminate | congruence].
  - destruct (P a); cbn; [split; [discriminate | reflexivity] | exact IH].
Qed.

Lemma existsb_concat_filter {A B} (P : B -> bool) (f : A -> list B) (l : list A) :
  existsb (fun a => existsb P (f a)) l = true
  <-> List.concat (List.map (fun a => List.filter P (f a)) l) <> [].
Proof.
  induction l as [|a l IH]; cbn.
  - split; [discriminate | congruence].
  - rewrite orb_true_iff, IH, existsb_filter.
    destruct (List.filter P (f a)); cbn; split.
    + intros [Hn|Hn]; [congruence | exact Hn].
    + auto.
    + discriminate.
    + left. discriminate.
Qed.

Lemma app3_nonempty {A} (a b c : list A) :
  (a <> [] \/ b <> []) \/ c <> [] <-> (a ++ b ++ c)%list <> [].
Proof.
  destruct a, b, c; cbn; intuition congruence.
Qed.

(** X22. [hasAllAttachments(kind)] is true exactly when
    [getAllAttachments(kind)] is not empty, and every attachment that
    [getAllAttachments(kind)] returns has that kind. *)
Theorem hasAllAttachments_getAllAttachments (this : MessageContext) (kind : string) :
  (hasAllAttachments this (Some kind) = true <-> getAllAttachments this kind <> [])
  /\ Forall (fun a => attachment_type a = kind) (getAllAttachments this kind).
Proof.
  unfold hasAllAttachments, getAllAttachments, hasAttachments, getAttachments,
    Forwards.hasAttachments, Forwards.getAttachments,
    Attachmentable.hasAttachments, Attachmentable.getAttachments.
  split.
  - rewrite !orb_true_iff, existsb_filter, existsb_concat_filter.
    destruct (replyMessage this) as [reply|]; cbn [from_option].
    + rewrite existsb_filter. apply app3_nonempty.
    + rewrite <- app3_nonempty. intuition congruence.
  - assert (Hfilter : forall l,
              Forall (fun a => attachment_type a = kind)
                (List.filter (Attachmentable.matches (Some kind)) l)).
    { intros l. induction l as [|a l IH]; cbn; [constructor|].
      destruct (String.eqb_spec (attachment_type a) kind); [constructor|]; auto. }
    apply Forall_app. split; [apply Hfilter|]. apply Forall_app. split.
    + destruct (replyMessage this); cbn; [apply Hfilter | constructor].
    + induction (forwards this) as [|f fs IH]; cbn; [constructor|].
      apply Forall_app. split; [apply Hfilter | exact IH].
Qed.

End MoreProperties.

Section MessageOperationProperties.
Variable attachmentToString : Attachment -> string.

(** ** [editMessage] and [editMessageText] *)

(** X23. Whatever parameters [editMessage] is given, the call names the
    message of the view: [peer_id] is the peer of the view and
    [message_id] its id; the parameters cannot replace them. The
    operation does not change the view. *)
Theorem editMessage_target (this : MessageContext)
  (params : gmap string (option json)) (completion : Completion Z) :
  exists sent,
    request (editMessage attachmentToString params this) = messages_edit sent
    /\ sent !! "peer_id" = Some (Some (jnumber (peerId this)))
    /\ sent !! "message_id" = Some (Some (jnumber (id this)))
    /\ resume (editMessage attachmentToString params this) completion
       = (this, completion).
Proof.
  eexists. split; [reflexivity|]. unfold editParams. repeat split.
  - do 3 apply lookup_union_Some_l. reflexivity.
  - do 3 apply lookup_union_Some_l. reflexivity.
Qed.

(** X24. Every other parameter is sent as the caller gave it. For what
    the caller left out, [editMessage] keeps the forwarded messages and
    the snippets, sends the text of the view as the message, and lists
    as attachments those of the view that can be attached, joined by
    commas. *)
Theorem editMessage_defaults (this : MessageContext)
  (params : gmap string (option json)) :
  let sent := editParams attachmentToString this params in
  (forall key value, key <> "peer_id" -> key <> "message_id" ->
     params !! key = Some value -> sent !! key = Some value)
  /\ (params !! "keep_forward_messages" = None ->
      sent !! "keep_forward_messages" = Some (Some (jnumber 1)))
  /\ (params !! "keep_snippets" = None ->
      sent !! "keep_snippets" = Some (Some (jnumber 1)))
  /\ (params !! "message" = None ->
      sent !! "message" = Some (JString <$> text this))
  /\ (params !! "attachment" = None ->
      sent !! "attachment" =
        Some (Some (JString
          (String.concat ","
             (List.map attachmentToString
                (List.filter canBeAttached (attachments this))))))).
Proof.
  cbn zeta. unfold editParams.
  assert (Hfixed : forall key, key <> "peer_id" -> key <> "message_id" ->
            ({[ "peer_id" := Some (jnumber (peerId this));
                "message_id" := Some (jnumber (id this)) ]}
               : gmap string (option json)) !! key = None).
  { intros key H1 H2. rewrite lookup_insert_ne by congruence.
    apply lookup_singleton_ne. congruence. }
  split; [|repeat split].
  - intros key value H1 H2 Hgiven. do 2 apply lookup_union_Some_l.
    rewrite lookup_union_r by (apply Hfixed; assumption). exact Hgiven.
  - intros Hnone. apply lookup_union_Some_l.
    rewrite lookup_union_r.
    + reflexivity.
    + rewrite lookup_union_r by (apply Hfixed; discriminate). exact Hnone.
  - intros Hnone. apply lookup_union_Some_l.
    rewrite lookup_union_r.
    + reflexivity.
    + rewrite lookup_union_r by (apply Hfixed; discriminate). exact Hnone.
  - intros Hnone. apply lookup_union_Some_l.
    rewrite lookup_union_r.
    + reflexivity.
    + rewrite lookup_union_r by (apply Hfixed; discriminate). exact Hnone.
  - intros Hnone. apply lookup_union_Some_l.
    rewrite lookup_union_r.
    + reflexivity.
    + rewrite lookup_union_r by (apply Hfixed; discriminate). exact Hnone.
Qed.

(** X25. [editMessage] names the message by its id when the id is not
    0, and by its conversation message id when the id is 0; in that case
    no [id] is sent unless the caller gives one. *)
Theorem editMessage_identifies (this : MessageContext)
  (params : gmap string (option json)) :
  let sent := editParams attachmentToString this params in
  params !! "id" = None ->
  params !! "conversation_message_id" = None ->
  (id this <> 0 ->
   sent !! "id" = Some (Some (jnumber (id this)))
   /\ sent !! "conversation_message_id" = None)
  /\ (id this = 0 ->
      sent !! "conversation_message_id"
        = Some (Some (jnumber (conversationMessageId this)))
      /\ sent !! "id" = None).
Proof.
  cbn zeta. intros Hid Hcm. unfold editParams.
  assert (Hhead : forall key, key <> "peer_id" -> key <> "message_id" ->
            params !! key = None ->
            forall target : gmap string (option json),
            (({[ "peer_id" := Some (jnumber (peerId this));
                 "message_id" := Some (jnumber (id this)) ]}
                : gmap string (option json))
             ∪ params
             ∪ {[ "attachment" :=
                    Some (JString (StringOfArray attachmentToString
                                     (List.filter canBeAttached (attachments this))));
                  "message" := JString <$> text this;
                  "keep_forward_messages" := Some (jnumber 1);
                  "keep_snippets" := Some (jnumber 1) ]}
             ∪ target) !! key
            = (({[ "attachment" :=
                    Some (JString (StringOfArray attachmentToString
                                     (List.filter canBeAttached (attachments this))));
                  "message" := JString <$> text this;
                  "keep_forward_messages" := Some (jnumber 1);
                  "keep_snippets" := Some (jnumber 1) ]}
                : gmap string (option json)) ∪ target) !! key).
  { intros key H1 H2 Hnone target.
    rewrite <- !(assoc_L (∪)).
    rewrite lookup_union_r.
    - rewrite lookup_union_r by exact Hnone. reflexivity.
    - rewrite lookup_insert_ne by congruence.
      apply lookup_singleton_ne. congruence. }
  split.
  - intros Hnz. apply Z.eqb_neq in Hnz. rewrite Hnz. cbn [negb]. split.
    + rewrite (Hhead "id") by (assumption || discriminate). reflexivity.
    + rewrite (Hhead "conversation_message_id") by (assumption || discriminate).
      reflexivity.
  - intros Hz. apply Z.eqb_eq in Hz. rewrite Hz. cbn [negb]. split.
    + rewrite (Hhead "conversation_message_id") by (assumption || discriminate).
      reflexivity.
    + rewrite (Hhead "id") by (assumption || discriminate). reflexivity.
Qed.

(** X26. [editMessageText] sends the new text as the message. When the
    call resolves, the text of the view is the new text as it was given
    (it is not unescaped) and nothing else of the view changes, so that
    a later edit sends this text by default; when the call is rejected
    the view keeps its text. *)
Theorem editMessageText_text (this : MessageContext) (message : string)
  (completion : Completion Z) :
  let operation := editMessageText attachmentToString message this in
  (exists sent,
     request operation = messages_edit sent
     /\ sent !! "message" = Some (Some (JString message)))
  /\ match completion with
     | Return response =>
         exists after,
           resume operation completion = (after, Return response)
           /\ text after = Some message
           /\ after = set_text (Some message) this
           /\ editParams attachmentToString after ∅ !! "message"
              = Some (Some (JString message))
     | Throw e => resume operation completion = (this, Throw e)
     end.
Proof.
  cbn zeta. split.
  - eexists. split; [reflexivity|]. unfold editParams.
    do 2 apply lookup_union_Some_l.
    rewrite lookup_union_r by reflexivity. apply lookup_singleton_eq.
  - destruct completion as [response|e]; [|reflexivity].
    eexists. split; [reflexivity|]. split; [reflexivity|]. split; [reflexivity|].
    unfold editParams. apply lookup_union_Some_l.
    rewrite lookup_union_r by (vm_compute; reflexivity). reflexivity.
Qed.

(** X27. [deleteMessage], [restoreMessage] and [setActivity] never
    change the view, whatever the client answers. Without arguments
    [deleteMessage] deletes the message of the view alone and not as
    spam; [restoreMessage] names the id of the view and [setActivity]
    its peer, with the activity [typing]. *)
Theorem delete_restore_activity (this : MessageContext)
  (ids : option (list Z)) (spam : option Z) (completion : Completion Z) :
  (resume (deleteMessage ids spam this) completion).1 = this
  /\ (resume (restoreMessage this) completion).1 = this
  /\ (resume (setActivity this) completion).1 = this
  /\ request (deleteMessage None None this) = messages_delete 0 [id this]
  /\ request (restoreMessage this) = messages_restore (id this)
  /\ request (setActivity this) = messages_setActivity (peerId this) "typing".
Proof.
  destruct completion; repeat split.
Qed.

End MessageOperationProperties.

(** * The properties on concrete views *)

Import Sample.

Local Open Scope list_scope.

(** The scenario of the spec for long polling: the update
    [[4, 10, flags, 2000000001, ts, text]] gives a stub view of message
    10 in chat 1, with the default capabilities. *)
Example polling_scenario :
  let update :=
    [JNumber 4 0; JNumber 10 0; JNumber 1 0; JNumber 2000000001 0;
     JNumber 1600000000 0; JString "hi"] in
  exists this,
    new_MessageContext (polling update) = Return this
    /\ keyboard (clientInfo this) = true
    /\ id this = 10
    /\ peerId this = 2000000001
    /\ isChat this = true
    /\ chatId this = Some 1
    /\ filled this = false.
Proof. cbn zeta. eexists. split; [reflexivity|]. repeat split. Qed.

(** The scenario of the spec for a payload that is JSON. *)
Example payload_scenario :
  messagePayload (view (withPayload (Some json_a1) (plain 1 123 456)))
  = Some (JObject [("a", JNumber 1 0)]).
Proof. reflexivity. Qed.

(** C1, counterexample: the payload [not json] is not valid JSON;
    [applyPayload] throws on it, and so does the constructor: no view is
    made, and [messagePayload] is not undefined without an exception. *)
Lemma applyPayload_not_json_throws :
  let m := withPayload (Some "not json") (plain 1 123 456) in
  let this := allocate (webhook (Bare m)) (polyfill (Bare m)) in
  Msg.payload m = Some "not json"
  /\ JSON.parse "not json" = None
  /\ (applyPayload this (Bare m)).2 = Throw SyntaxError
  /\ (applyPayload this (Bare m)).2 <> Return tt
  /\ new_MessageContext (webhook (Bare m)) = Throw SyntaxError.
Proof. cbn zeta. repeat split; try reflexivity. vm_compute. discriminate. Qed.

Lemma applyPayload_messagePayload_witness :
  let absent := plain 1 123 456 in
  let valid := withPayload (Some json_a1) (plain 1 123 456) in
  let invalid := withPayload (Some "not json") (plain 1 123 456) in
  let this := allocate (webhook (Bare absent)) (polyfill (Bare absent)) in
  ((applyPayload this (Bare absent)).2 = Return tt
   /\ messagePayload (applyPayload this (Bare absent)).1 = None)
  /\ ((applyPayload this (Bare valid)).2 = Return tt
      /\ messagePayload (applyPayload this (Bare valid)).1
         = Some (JObject [("a", JNumber 1 0)]))
  /\ (applyPayload this (Bare invalid)).2 = Throw SyntaxError.
Proof.
  cbn zeta. split; [|split].
  - apply (proj1 (applyPayload_messagePayload _ (Bare (plain 1 123 456))));
      [left; reflexivity | reflexivity].
  - apply (proj1 (proj2 (applyPayload_messagePayload _
             (Bare (withPayload (Some json_a1) (plain 1 123 456))))) json_a1);
      reflexivity.
  - apply (proj2 (proj2 (applyPayload_messagePayload _
             (Bare (withPayload (Some "not json") (plain 1 123 456))))) "not json");
      [reflexivity | discriminate | reflexivity].
Defined.

(** C2, counterexample: a stub view of a fragment without geo data reads
    [geo] as undefined; nothing is thrown. *)
Lemma geo_stub_without_geo :
  let this := stub (plain 1 123 456) in
  filled this = false
  /\ geo this = Return None
  /\ geo this <> Throw (VKError "PAYLOAD_IS_NOT_FULL"
                          "The message payload is not fully loaded").
Proof. cbn zeta. repeat split. discriminate. Qed.

Lemma geo_stub_witness :
  filled (stub (withGeo (Some point) (plain 1 123 456))) = false
  /\ geo (stub (withGeo (Some point) (plain 1 123 456)))
     = Throw (VKError "PAYLOAD_IS_NOT_FULL" "The message payload is not fully loaded").
Proof.
  split; [reflexivity|].
  exact (geo_stub (stub (withGeo (Some point) (plain 1 123 456))) eq_refl).
Defined.

(** C3 (the code at the failing input). [send("hi")] on a view of peer
    123: a random id is asked for, [messages.send] is called with it,
    with the peer 123 and with the message [hi]; the view that comes
    back is a stub, outbound, with the peer and the sender of the
    current one, and its text is undefined: the constructor is given
    [options.text], the text was put in [options.message]. *)
Theorem send_hi_has_no_text :
  let this := view (plain 1 123 456) in
  let result := run (answers [] []) (send (Text "hi") None this) in
  (exists options,
     result.1 = [getRandomId; messages_send options; Date_now]
     /\ options !! "random_id" = Some (jnumber 777)
     /\ options !! "peer_id" = Some (jnumber 123)
     /\ options !! "message" = Some (JString "hi")
     /\ options !! "text" = None)
  /\ (exists sent,
     result.2 = (this, Return sent)
     /\ id sent = 42
     /\ Msg.out (message sent) = 1
     /\ isOutbox sent = true
     /\ peerId sent = 123
     /\ senderId sent = 456
     /\ filled sent = false
     /\ text sent = None
     /\ text sent <> Some "hi").
Proof.
  cbn zeta.
  destruct (send_text (answers [] []) (view (plain 1 123 456)) "hi" 777 42
              1600000000123 eq_refl eq_refl eq_refl)
    as (sent & Hrun & Hid & Hout & Hrandom & Hpeer & Hsender & Hstub & Htext).
  rewrite Hrun. split.
  - eexists. split; [reflexivity|]. repeat split.
  - exists sent. unfold isOutbox. rewrite Hid, Hout, Hpeer, Hsender, Hstub, Htext.
    repeat split. discriminate.
Qed.

(** C6, counterexample: two loads that proceed and get a fragment. The
    first is answered by a fragment whose payload is not JSON: the
    fragment is replaced, then [applyPayload] throws and the view stays a
    stub. The second is a forced load on a view that has a reply message,
    answered by a fragment without one: the load succeeds and the view is
    full, but the reply message is still the one of the old fragment, it
    was not rebuilt from the new one. *)
Lemma loadMessagePayload_not_rebuilt :
  (let this := stub (plain 1 123 456) in
   let fetched := withPayload (Some "not json") (plain 1 123 456) in
   exists after,
     run (answers [fetched] []) (loadMessagePayload false this)
     = ([messages_getById 1], (after, Throw SyntaxError))
     /\ message after = fetched
     /\ filled after = false)
  /\ (let this := view (withReply (Some quoted) (plain 1 123 456)) in
      let fetched := plain 1 123 456 in
      exists after,
        run (answers [fetched] []) (loadMessagePayload true this)
        = ([messages_getById 1], (after, Return tt))
        /\ filled after = true
        /\ message after = fetched
        /\ Msg.reply_message (message after) = None
        /\ replyMessage after = Some (new_MessageReply quoted)
        /\ replyMessage after
           <> (new_MessageReply <$> Msg.reply_message (message after))).
Proof.
  cbn zeta. split.
  - eexists. split; [vm_compute; reflexivity|]. repeat split.
  - eexists. split; [vm_compute; reflexivity|]. repeat split. discriminate.
Qed.

Lemma loadMessagePayload_promotes_witness :
  let full := view (plain 1 123 456) in
  let this := stub (plain 1 123 456) in
  let fetched := withReply (Some quoted) (withPayload (Some json_a1) (plain 1 123 456)) in
  let h := answers [fetched] [] in
  run h (loadMessagePayload false full) = ([], (full, Return tt))
  /\ (run h (loadMessagePayload false this)).1 = [messages_getById 1]
  /\ exists after,
       (run h (loadMessagePayload false this)).2 = (after, Return tt)
       /\ message after = fetched
       /\ attachments after = transformAttachments (Msg.attachments fetched)
       /\ forwards after =
            List.map new_MessageForward (default [] (Msg.fwd_messages fetched))
       /\ (forall reply, Msg.reply_message fetched = Some reply ->
           replyMessage after = Some (new_MessageReply reply))
       /\ filled after = true.
Proof.
  cbn zeta. split; [|split].
  - apply (proj1 (loadMessagePayload_promotes _ (view (plain 1 123 456)) false));
      reflexivity.
  - apply (proj1 (proj2 (loadMessagePayload_promotes
             (answers [withReply (Some quoted)
                         (withPayload (Some json_a1) (plain 1 123 456))] [])
             (stub (plain 1 123 456)) false))).
    reflexivity.
  - apply (proj2 (proj2 (loadMessagePayload_promotes
             (answers [withReply (Some quoted)
                         (withPayload (Some json_a1) (plain 1 123 456))] [])
             (stub (plain 1 123 456)) false)) _ []).
    + reflexivity.
    + intros _. reflexivity.
    + intros Hzero. vm_compute in Hzero. discriminate.
    + intros s Hs Hne. injection Hs as <-. vm_compute. eauto.
Defined.

Lemma markAsImportant_acknowledged_witness :
  let this := view (plain 1 123 456) in
  let h := answers [] [5; 1] in
  h [] (messages_markAsImportant 1 [1]) = Return [5; 1]
  /\ exists after,
       run h (markAsImportant None None this)
       = ([messages_markAsImportant 1 [1]], (after, Return [5; 1]))
       /\ (In 1 [5; 1] ->
           after = set_message_important true this /\ isImportant after = true)
       /\ (~ In 1 [5; 1] -> after = this).
Proof.
  cbn zeta. split; [reflexivity|].
  exact (markAsImportant_acknowledged (answers [] [5; 1]) (view (plain 1 123 456))
           None None [5; 1] eq_refl).
Defined.

Lemma chat_only_operations_witness :
  let this := view (plain 1 123 456) in
  let h := answers [] [] in
  let failure := VKError "IS_NOT_CHAT" "This method is only available in chat" in
  isChat this = false
  /\ (forall title, run h (renameChat title this) = ([], (this, Throw failure)))
  /\ (forall source params,
      run h (newChatPhoto source params this) = ([], (this, Throw failure)))
  /\ run h (deleteChatPhoto this) = ([], (this, Throw failure))
  /\ (forall user, run h (inviteUser user this) = ([], (this, Throw failure)))
  /\ (forall user, run h (kickUser user this) = ([], (this, Throw failure)))
  /\ run h (pinMessage this) = ([], (this, Throw failure))
  /\ run h (unpinMessage this) = ([], (this, Throw failure)).
Proof.
  cbn zeta. split; [reflexivity|].
  exact (chat_only_operations (answers [] []) (view (plain 1 123 456)) eq_refl).
Defined.

Lemma applyPayload_wire_text_witness :
  let this := view (plain 1 123 456) in
  let empty := Bare (withText (Some "") (plain 1 123 456)) in
  let escaped := Bare (withText (Some "1 &lt; 2") (plain 1 123 456)) in
  (text (applyPayload this empty).1 = None
   /\ hasText (applyPayload this empty).1 = false)
  /\ text (applyPayload this escaped).1 = Some "1 < 2".
Proof.
  cbn zeta. split.
  - apply (proj1 (applyPayload_wire_text (view (plain 1 123 456))
             (Bare (withText (Some "") (plain 1 123 456))))).
    right. reflexivity.
  - assert (Hne : "1 &lt; 2" <> "") by discriminate.
    exact (proj2 (applyPayload_wire_text (view (plain 1 123 456))
             (Bare (withText (Some "1 &lt; 2") (plain 1 123 456))))
             "1 &lt; 2" eq_refl Hne).
Defined.

(** The projection of a plain view, and of a view with a reply and a
    payload. *)
Example serialize_plain :
  List.map fst (kSerializeData (view (plain 1 123 456)))
  = ["id"; "conversationMessageId"; "peerId"; "peerType"; "senderId";
     "senderType"; "createdAt"; "updatedAt"; "text"; "forwards";
     "attachments"; "isOutbox"].
Proof. reflexivity. Qed.

Example serialize_reply_payload :
  List.map fst
    (kSerializeData
       (view (withReply (Some quoted) (withPayload (Some json_a1) (plain 1 123 456)))))
  = ["id"; "conversationMessageId"; "peerId"; "peerType"; "senderId";
     "senderType"; "createdAt"; "updatedAt"; "text"; "replyMessage";
     "forwards"; "attachments"; "messagePayload"; "isOutbox"].
Proof. reflexivity. Qed.

(** * The further properties on concrete views *)

Import Scenario.

Lemma new_MessageContext_lifecycle_witness :
  let update :=
    [JNumber 4 0; JNumber 10 0; JNumber 1 0; JNumber 2000000001 0;
     JNumber 1600000000 0; JString "hi"] in
  filled (built (new_MessageContext (polling update)) (view (plain 1 1 1))) = false
  /\ filled (view (plain 1 123 456)) = true.
Proof.
  cbn zeta. split.
  - exact (proj1 (new_MessageContext_lifecycle
             (polling [JNumber 4 0; JNumber 10 0; JNumber 1 0; JNumber 2000000001 0;
                       JNumber 1600000000 0; JString "hi"]) _ eq_refl)).
  - exact (proj1 (new_MessageContext_lifecycle
             (webhook (Bare (plain 1 123 456))) _ eq_refl)).
Defined.

Lemma new_MessageContext_consistent_witness :
  let m := withReply (Some quoted) (withPayload (Some json_a1) (plain 1 123 456)) in
  replyMessage (view m) = Some (new_MessageReply quoted)
  /\ messagePayload (view m) = Some (JObject [("a", JNumber 1 0)]).
Proof.
  cbn zeta.
  pose proof (new_MessageContext_consistent
                (webhook (Bare (withReply (Some quoted)
                                  (withPayload (Some json_a1) (plain 1 123 456)))))
                _ eq_refl) as (_ & _ & _ & Hreply & _ & Hpayload).
  split; [exact Hreply | exact Hpayload].
Defined.


Lemma loadMessagePayload_empty_witness :
  run (answers [] []) (loadMessagePayload false (stub (plain 1 123 456)))
  = ([messages_getById 1], (stub (plain 1 123 456), Throw TypeError)).
Proof.
  apply (loadMessagePayload_empty (answers [] []) (stub (plain 1 123 456)) false).
  - reflexivity.
  - intros _. reflexivity.
  - intros Hzero. vm_compute in Hzero. discriminate.
Defined.

Lemma loadMessagePayload_rejected_witness :
  run (rejects (RemoteError "down")) (loadMessagePayload true (view (plain 1 123 456)))
  = ([messages_getById 1], (view (plain 1 123 456), Throw (RemoteError "down"))).
Proof.
  apply (loadMessagePayload_rejected (rejects (RemoteError "down"))
           (view (plain 1 123 456)) true).
  - reflexivity.
  - intros _. reflexivity.
  - intros Hzero. vm_compute in Hzero. discriminate.
Defined.

Lemma loadMessagePayload_then_noop_witness :
  let this := stub (plain 1 123 456) in
  let after := view (plain 1 123 456) in
  run (answers [plain 1 123 456] []) (loadMessagePayload false this)
  = ([messages_getById 1], (after, Return tt))
  /\ filled after = true
  /\ run (rejects TypeError) (loadMessagePayload false after) = ([], (after, Return tt)).
Proof.
  cbn zeta.
  assert (Hrun : run (answers [plain 1 123 456] [])
                   (loadMessagePayload false (stub (plain 1 123 456)))
                 = ([messages_getById 1], (view (plain 1 123 456), Return tt)))
    by (vm_compute; reflexivity).
  split; [exact Hrun|].
  exact (loadMessagePayload_then_noop _ (rejects TypeError) _ _ _ _ Hrun).
Defined.

Lemma markAsImportant_toggles_witness :
  let this := view (plain 1 123 456) in
  exists after,
    run (answers [] [1]) (markAsImportant None None this)
    = ([messages_markAsImportant 1 [1]], (after, Return [1]))
    /\ isImportant this = false
    /\ isImportant after = true.
Proof.
  cbn zeta.
  destruct (markAsImportant_toggles (answers [] [1]) (view (plain 1 123 456)) [1]
              eq_refl (or_introl eq_refl))
    as (after & Hrun & Himportant & _).
  exists after. split; [exact Hrun|]. split; [reflexivity | exact Himportant].
Defined.

Lemma markAsImportant_rejected_witness :
  run (rejects (RemoteError "down")) (markAsImportant None None (view (plain 1 123 456)))
  = ([messages_markAsImportant 1 [1]],
     (view (plain 1 123 456), Throw (RemoteError "down"))).
Proof.
  exact (markAsImportant_rejected (rejects (RemoteError "down"))
           (view (plain 1 123 456)) None None (RemoteError "down") eq_refl).
Defined.


Lemma send_rejected_witness :
  let this := view (plain 1 123 456) in
  exists options,
    run (rejectsSend (RemoteError "flood")) (send (Text "hi") None this)
    = ([getRandomId; messages_send options], (this, Throw (RemoteError "flood"))).
Proof.
  cbn zeta. eexists.
  exact (send_rejected (rejectsSend (RemoteError "flood")) (view (plain 1 123 456))
           (Text "hi") None 777 (RemoteError "flood") eq_refl eq_refl).
Defined.

Lemma send_options_precedence_witness :
  let this := view (plain 1 123 456) in
  let params : gmap string json :=
    {[ "peer_id" := jnumber 999; "message" := JString "bye" ]} in
  let options := sentOptions this (Text "hi") (Some params) 777 in
  options !! "peer_id" = Some (jnumber 999)
  /\ options !! "message" = Some (JString "bye")
  /\ options !! "random_id" = Some (jnumber 777)
  /\ sentOptions this (Text "hi") None 777 !! "peer_id" = Some (jnumber 123).
Proof.
  cbn zeta.
  pose proof (send_options_precedence (view (plain 1 123 456)) (Text "hi")
                (Some {[ "peer_id" := jnumber 999; "message" := JString "bye" ]}) 777)
    as (Hown & _ & Hrandom & _).
  pose proof (send_options_precedence (view (plain 1 123 456)) (Text "hi") None 777)
    as (_ & Hpeer & _ & _).
  split; [apply Hown; vm_compute; reflexivity|].
  split; [apply Hown; vm_compute; reflexivity|].
  split; [apply Hrandom; vm_compute; reflexivity|].
  apply Hpeer. vm_compute. reflexivity.
Defined.

Lemma reply_request_witness :
  let this := view (plain 1 123 456) in
  exists options,
    take 2 (run (answers [] []) (reply (Text "ok") None this)).1
    = [getRandomId; messages_send options]
    /\ options !! "reply_to" = Some (jnumber 1)
    /\ options !! "message" = Some (JString "ok").
Proof.
  cbn zeta.
  destruct (reply_request (answers [] []) (view (plain 1 123 456)) (Text "ok") None
              777 eq_refl)
    as (options & Htrace & Hreply & Hown & _).
  exists options. split; [exact Htrace|]. split.
  - apply Hreply. vm_compute. reflexivity.
  - apply Hown. vm_compute. reflexivity.
Defined.

Lemma sendSticker_request_witness :
  let this := view (plain 1 123 456) in
  exists options,
    take 2 (run (answers [] []) (sendSticker 9 this)).1
    = [getRandomId; messages_send options]
    /\ options !! "sticker_id" = Some (jnumber 9)
    /\ options !! "message" = None.
Proof.
  cbn zeta.
  destruct (sendSticker_request (answers [] []) (view (plain 1 123 456)) 9 777 eq_refl)
    as (options & Htrace & Hsticker & _ & _ & Hdom).
  exists options. split; [exact Htrace|]. split; [exact Hsticker|].
  apply not_elem_of_dom. rewrite Hdom. intros Hin.
  apply elem_of_union in Hin as [Hin|Hin];
    [apply elem_of_union in Hin as [Hin|Hin]|];
    apply elem_of_singleton in Hin; discriminate.
Defined.

Lemma renameChat_on_chat_witness :
  isChat (view invitation) = true
  /\ run (answers [] []) (renameChat "team" (view invitation))
     = ([messages_editChat (Some 1) "team"], (view invitation, Return true)).
Proof.
  split; [reflexivity|].
  exact (renameChat_on_chat (answers [] []) (view invitation) "team" eq_refl).
Defined.

Lemma invite_kick_member_witness :
  (run (answers [] []) (inviteUser None (view invitation))).1
  = [messages_addChatUser (Some 1) (Some 77)]
  /\ (run (answers [] []) (kickUser (Some 5) (view invitation))).1
     = [messages_removeChatUser (Some 1) (Some 5)]
  /\ (run (answers [] []) (kickUser None (view (plain 10 2000000001 5)))).1
     = [messages_removeChatUser (Some 1) None].
Proof.
  split; [|split].
  - exact (proj1 (invite_kick_member (answers [] []) (view invitation) None eq_refl)).
  - exact (proj2 (invite_kick_member (answers [] []) (view invitation) (Some 5) eq_refl)).
  - exact (proj2 (invite_kick_member (answers [] []) (view (plain 10 2000000001 5))
                    None eq_refl)).
Defined.

Lemma pin_unpin_on_chat_witness :
  (run (answers [] []) (pinMessage (view invitation))).1
  = [messages_pin 2000000001 10]
  /\ (run (answers [] []) (unpinMessage (view invitation))).1
     = [messages_unpin 2000000001 10].
Proof.
  pose proof (pin_unpin_on_chat (answers [] []) (view invitation) eq_refl)
    as (Hpin & _ & Hunpin & _).
  split; [exact Hpin | exact Hunpin].
Defined.

Lemma deleteChatPhoto_on_chat_witness :
  run (answers [] []) (deleteChatPhoto (view invitation))
  = ([messages_deleteChatPhoto (Some 1)], (view invitation, Return true)).
Proof.
  exact (deleteChatPhoto_on_chat (answers [] []) (view invitation) (JNumber 1 0)
           eq_refl eq_refl).
Defined.

Lemma editMessage_defaults_witness :
  let this := view (withText (Some "old") (plain 1 123 456)) in
  let params : gmap string (option json) :=
    {[ "message" := Some (JString "new"); "peer_id" := Some (jnumber 999) ]} in
  let sent := editParams typeName this params in
  sent !! "message" = Some (Some (JString "new"))
  /\ sent !! "keep_snippets" = Some (Some (jnumber 1))
  /\ editParams typeName this ∅ !! "message" = Some (Some (JString "old"))
  /\ editParams typeName this ∅ !! "attachment" = Some (Some (JString "")).
Proof.
  cbn zeta.
  pose proof (editMessage_defaults typeName
                (view (withText (Some "old") (plain 1 123 456)))
                {[ "message" := Some (JString "new"); "peer_id" := Some (jnumber 999) ]})
    as (Hgiven & _ & Hsnippets & _).
  pose proof (editMessage_defaults typeName
                (view (withText (Some "old") (plain 1 123 456))) ∅)
    as (_ & _ & _ & Hmessage & Hattachment).
  split; [apply Hgiven; [discriminate | discriminate | vm_compute; reflexivity]|].
  split; [apply Hsnippets; vm_compute; reflexivity|].
  split; [apply Hmessage; reflexivity | apply Hattachment; reflexivity].
Defined.

Lemma editMessage_identifies_witness :
  let sent := editParams typeName (view (plain 1 123 456)) ∅ in
  let polled := editParams typeName (view (plain 0 123 456)) ∅ in
  (sent !! "id" = Some (Some (jnumber 1))
   /\ sent !! "conversation_message_id" = None)
  /\ (polled !! "conversation_message_id" = Some (Some (jnumber 0))
      /\ polled !! "id" = None).
Proof.
  cbn zeta. split.
  - apply (editMessage_identifies typeName (view (plain 1 123 456)) ∅
             (lookup_empty _) (lookup_empty _)).
    discriminate.
  - apply (editMessage_identifies typeName (view (plain 0 123 456)) ∅
             (lookup_empty _) (lookup_empty _)).
    reflexivity.
Defined.

Lemma hasAllAttachments_getAllAttachments_witness :
  let this := view (withReply (Some quoted) (plain 1 123 456)) in
  hasAllAttachments this (Some "photo") = true
  /\ getAllAttachments this "photo" <> [].
Proof.
  cbn zeta. split; [reflexivity|].
  apply (proj1 (hasAllAttachments_getAllAttachments
                  (view (withReply (Some quoted) (plain 1 123 456))) "photo")).
  reflexivity.
Defined.
